(** * Set_NOAA_Background_Linux: a shallow embedding and its properties

    The script downloads the latest GOES-19 full-disk image into a cache
    file and makes it the desktop background of a Cinnamon, MATE or XFCE
    session.  Everything it does goes through the operating system: the
    environment, the search path, the file system, child processes and one
    HTTP request.  The embedding below keeps the control flow of the three
    functions of the script and threads an explicit state (the file system
    and the chronological trace of observable events) through them; what
    the outside world answers is read from a [World] record of oracles, so
    that every theorem quantifies over all possible answers.

    Scope of the model.  Text is [string] read as ASCII: [PyStr.upper]
    maps [a-z] to [A-Z] and leaves every other character alone, which is
    what Python's [str.upper] does on ASCII text.  The exceptions are the
    subclasses of [Exception]; interrupts are not modelled.  Writing to
    the standard streams and [Path.resolve()] do not fail. *)

From Stdlib Require Import ZArith Lia Bool Ascii String List DecimalString.
From stdpp Require Import base option list gmap strings.

Local Open Scope string_scope.
Local Open Scope Z_scope.

(** ** Python strings *)

Module PyStr.

(** [str.upper] on one ASCII character. *)
Definition upper_ascii (c : ascii) : ascii :=
  let n := N_of_ascii c in
  if ((97 <=? n) && (n <=? 122))%N then ascii_of_N (n - 32) else c.

(** [s.upper()] *)
Fixpoint upper (s : string) : string :=
  match s with
  | EmptyString => EmptyString
  | String c r => String (upper_ascii c) (upper r)
  end.

(** [needle in hay] for two strings: [needle] occurs as a contiguous
    substring of [hay]. *)
Fixpoint contains (needle hay : string) : bool :=
  String.prefix needle hay ||
  match hay with
  | EmptyString => false
  | String _ r => contains needle r
  end.

(** The ASCII line boundaries recognised by [str.splitlines]:
    LF, CR, VT, FF, FS, GS and RS. *)
Definition is_linebreak (c : ascii) : bool :=
  let n := N_of_ascii c in
  ((n =? 10) || (n =? 13) || (n =? 11) || (n =? 12) ||
   (n =? 28) || (n =? 29) || (n =? 30))%N.

(** [s.splitlines()]: [cur] is the line being read, in reverse.  A CR
    immediately followed by LF is one boundary; no empty last line is
    produced after a trailing boundary. *)
Fixpoint splitlines_from (cur : list ascii) (s : string) : list string :=
  match s with
  | EmptyString =>
      match cur with
      | [] => []
      | _ => [string_of_list_ascii (rev cur)]
      end
  | String c r =>
      if is_linebreak c then
        string_of_list_ascii (rev cur) ::
        match r with
        | String c' r' =>
            if ((N_of_ascii c =? 13) && (N_of_ascii c' =? 10))%N
            then splitlines_from [] r'
            else splitlines_from [] r
        | EmptyString => splitlines_from [] r
        end
      else splitlines_from (c :: cur) r
  end.

Definition splitlines (s : string) : list string := splitlines_from [] s.

(** [sep.join(parts)] *)
Definition join (sep : string) (parts : list string) : string :=
  String.concat sep parts.

(** [str(n)] for an integer. *)
Definition of_int (n : Z) : string := NilZero.string_of_int (Z.to_int n).

(** Truth value of a string: non-empty. *)
Definition truthy (s : string) : bool :=
  match s with EmptyString => false | String _ _ => true end.

End PyStr.

(** ** Exceptions

    The exception classes the script distinguishes, with the part of the
    class hierarchy its [except] clauses depend on:
    [requests.exceptions.RequestException] derives from [OSError] (it is
    declared as a subclass of [IOError]), [FileNotFoundError] derives from
    [OSError], and [subprocess.CalledProcessError] and [IndexError] derive
    from [Exception] only.  The universe is the subclasses of [Exception];
    [msg] is what [str(e)] returns. *)

Inductive exn : Type :=
| RequestException (msg : string)
| FileNotFoundError (msg : string)
| OSError (msg : string)
| CalledProcessError (cmd : list string) (returncode : Z)
                     (stdout stderr : string) (msg : string)
| IndexError (msg : string)
| OtherException (msg : string).

Definition exn_str (e : exn) : string :=
  match e with
  | RequestException m | FileNotFoundError m | OSError m
  | CalledProcessError _ _ _ _ m | IndexError m | OtherException m => m
  end.

Definition is_RequestException (e : exn) : bool :=
  match e with RequestException _ => true | _ => false end.

Definition is_FileNotFoundError (e : exn) : bool :=
  match e with FileNotFoundError _ => true | _ => false end.

Definition is_OSError (e : exn) : bool :=
  match e with
  | RequestException _ | FileNotFoundError _ | OSError _ => true
  | _ => false
  end.

Definition is_CalledProcessError (e : exn) : bool :=
  match e with CalledProcessError _ _ _ _ _ => true | _ => false end.

(** ** Paths and the file system

    A [pathlib.Path] is modelled as the list of components of an absolute
    path (the script only handles [IMAGE_PATH], which starts at
    [Path.home()]); the empty list is the root directory. *)

Definition path : Type := list string.

(** [p.parent]; the root is its own parent. *)
Definition parent (p : path) : path := removelast p.

(** [str(p)] *)
Definition path_str (p : path) : string :=
  match p with
  | [] => "/"
  | _ => String.concat "" (map (fun c => "/" +:+ c) p)
  end.

(** [p / name] *)
Definition path_join (p : path) (name : string) : path := (p ++ [name])%list.

Record FS : Type := mkFS {
  fs_dirs : gset (list string);
  fs_files : gmap (list string) (list Byte.byte)
}.

Definition is_dir (fs : FS) (p : path) : bool :=
  bool_decide (p = []) || bool_decide (p ∈ fs_dirs fs).

(** [p.is_file()] *)
Definition is_file (fs : FS) (p : path) : bool :=
  match fs_files fs !! p with Some _ => true | None => false end.

(** The proper and improper ancestors of [p] below the root, outermost
    first: [ancestors ["a";"b"] = [["a"]; ["a";"b"]]]. *)
Fixpoint ancestors_from (base : path) (p : path) : list path :=
  match p with
  | [] => []
  | c :: r => (base ++ [c])%list :: ancestors_from (base ++ [c])%list r
  end.

Definition ancestors (p : path) : list path := ancestors_from [] p.

(** ** Events, the outside world and the program state *)

Inductive stream : Type := Stdout | Stderr.

(** What a run does that can be seen from outside, besides changing the
    file system. *)
Inductive event : Type :=
| EvPrint (f : stream) (line : string)
| EvGetenv (name : string)
| EvWhich (name : string)
| EvSpawn (argv : list string)
| EvHttpGet (url : string) (timeout : Z)
| EvSleep (seconds : Z).

(** File-system operations that the operating system may refuse. *)
Inductive fs_op : Type :=
| OpMkdir (p : path)
| OpOpenWrite (p : path)
| OpWrite (p : path) (chunk_index : nat).

(** What starting a child process and waiting for it gives. *)
Inductive proc_outcome : Type :=
| Exited (returncode : Z) (stdout stderr : string)
| SpawnRaises (e : exn).

(** What [requests.get(url, stream=True, timeout=30)] gives: an exception,
    or a response with its status and the chunks that
    [iter_content(chunk_size=8192)] will yield, possibly ending in an
    exception raised in the middle of the transfer. *)
Inductive http_outcome : Type :=
| HttpRaises (e : exn)
| HttpResponse (status : Z) (reason : string)
               (chunks : list (list Byte.byte)) (transfer_error : option exn).

Record World : Type := mkWorld {
  (** [os.environ] *)
  environ : gmap string string;
  (** [shutil.which] *)
  shutil_which : string -> option string;
  (** [Path.home()] *)
  home : path;
  (** [Path.resolve()], non-strict *)
  path_resolve : path -> path;
  (** children, answered from the events so far and the argument list *)
  popen : list event -> list string -> proc_outcome;
  (** the HTTP server, answered from the events so far and the URL *)
  http_get : list event -> string -> http_outcome;
  (** refusals of the operating system (permissions, full disk, ...) *)
  os_fault : fs_op -> option exn;
  (** [str(e)] of a [CalledProcessError] built by [subprocess.run] *)
  called_process_error_str : list string -> Z -> string
}.

Record state : Type := mkState {
  st_fs : FS;
  st_trace : list event
}.

(** ** The monad of the script: state and exceptions *)

Inductive result (A : Type) : Type :=
| Ok (a : A)
| Raise (e : exn).
Arguments Ok {A} a.
Arguments Raise {A} e.

Definition M (A : Type) : Type := state -> result A * state.

Definition ret {A} (a : A) : M A := fun s => (Ok a, s).

Definition raise {A} (e : exn) : M A := fun s => (Raise e, s).

Definition bind {A B} (m : M A) (k : A -> M B) : M B :=
  fun s =>
    match m s with
    | (Ok a, s') => k a s'
    | (Raise e, s') => (Raise e, s')
    end.

(** [try: body  except ...: handler]; a handler that does not match
    re-raises. *)
Definition try_except {A} (body : M A) (handler : exn -> M A) : M A :=
  fun s =>
    match body s with
    | (Ok a, s') => (Ok a, s')
    | (Raise e, s') => handler e s'
    end.

Declare Scope py_scope.
Delimit Scope py_scope with py.
Notation "x <- m ;; k" := (bind m (fun x => k))
  (at level 100, m at next level, right associativity) : py_scope.
Notation "m ;; k" := (bind m (fun _ => k))
  (at level 100, right associativity) : py_scope.
Local Open Scope py_scope.

Definition emit (e : event) : M unit :=
  fun s => (Ok tt, mkState (st_fs s) (st_trace s ++ [e])%list).

Definition get_trace : M (list event) := fun s => (Ok (st_trace s), s).

Definition get_fs : M FS := fun s => (Ok (st_fs s), s).

Definition put_fs (fs : FS) : M unit :=
  fun s => (Ok tt, mkState fs (st_trace s)).

(** [print(line)] and [print(line, file=sys.stderr)] *)
Definition print (line : string) : M unit := emit (EvPrint Stdout line).
Definition eprint (line : string) : M unit := emit (EvPrint Stderr line).

(** [for x in xs: body x] *)
Fixpoint for_each {A} (xs : list A) (body : A -> M unit) : M unit :=
  match xs with
  | [] => ret tt
  | x :: r => body x ;; for_each r body
  end.

(** ** The library calls the script makes

    Each is modelled by what it does to the state and by the exception it
    may raise; the message texts of library exceptions are indicative. *)

Section Script.

Variable w : World.

(** [os.environ.get(name, default)] *)
Definition environ_get (name default : string) : M string :=
  emit (EvGetenv name);;
  ret (match environ w !! name with Some v => v | None => default end).

(** [shutil.which(name)], read for its truth value. *)
Definition which (name : string) : M bool :=
  emit (EvWhich name);;
  ret (match shutil_which w name with
       | Some found => PyStr.truthy found
       | None => false
       end).

(** [os.mkdir] along a chain of directories, outermost first: an
    existing directory is kept, a regular file in the way raises, a
    missing directory is created unless the system refuses. *)
Fixpoint mkdir_chain (ds : list path) : M unit :=
  match ds with
  | [] => ret tt
  | d :: r =>
      fs <- get_fs;;
      if is_dir fs d then mkdir_chain r
      else if is_file fs d then
        raise (OSError ("[Errno 17] File exists: " +:+ path_str d))
      else
        match os_fault w (OpMkdir d) with
        | Some e => raise e
        | None =>
            put_fs (mkFS ({[ d ]} ∪ fs_dirs fs) (fs_files fs));;
            mkdir_chain r
        end
  end.

(** [p.mkdir(parents=True, exist_ok=True)] *)
Definition mkdir_parents (p : path) : M unit := mkdir_chain (ancestors p).

Record response : Type := mkResponse {
  status_code : Z;
  reason : string;
  resp_url : string;
  body_chunks : list (list Byte.byte);
  body_error : option exn
}.

(** [requests.get(url, stream=True, timeout=30)] *)
Definition requests_get (url : string) : M response :=
  tr <- get_trace;;
  emit (EvHttpGet url 30);;
  match http_get w tr url with
  | HttpRaises e => raise e
  | HttpResponse status rsn chunks err =>
      ret (mkResponse status rsn url chunks err)
  end.

(** [response.raise_for_status()]: [HTTPError], a [RequestException],
    for the client errors 400..499 and the server errors 500..599, and
    nothing for any other status. *)
Definition raise_for_status (r : response) : M unit :=
  let describe kind :=
    PyStr.of_int (status_code r) +:+ " " +:+ kind +:+ ": " +:+ reason r
    +:+ " for url: " +:+ resp_url r in
  if (400 <=? status_code r) && (status_code r <? 500) then
    raise (RequestException (describe "Client Error"))
  else if (500 <=? status_code r) && (status_code r <? 600) then
    raise (RequestException (describe "Server Error"))
  else ret tt.

(** [open(p, 'wb')]: the file is created or truncated. *)
Definition open_wb (p : path) : M unit :=
  fs <- get_fs;;
  if is_dir fs p then
    raise (OSError ("[Errno 21] Is a directory: " +:+ path_str p))
  else if is_file fs (parent p) then
    raise (OSError ("[Errno 20] Not a directory: " +:+ path_str p))
  else if negb (is_dir fs (parent p)) then
    raise (FileNotFoundError
             ("[Errno 2] No such file or directory: " +:+ path_str p))
  else
    match os_fault w (OpOpenWrite p) with
    | Some e => raise e
    | None => put_fs (mkFS (fs_dirs fs) (<[ p := [] ]> (fs_files fs)))
    end.

(** [f.write(chunk)] for the [i]-th chunk of the transfer. *)
Definition file_write (p : path) (i : nat) (chunk : list Byte.byte) : M unit :=
  match os_fault w (OpWrite p i) with
  | Some e => raise e
  | None =>
      fs <- get_fs;;
      let old := match fs_files fs !! p with Some b => b | None => [] end in
      put_fs (mkFS (fs_dirs fs) (<[ p := (old ++ chunk)%list ]> (fs_files fs)))
  end.

(** [for chunk in response.iter_content(chunk_size=8192): f.write(chunk)] *)
Fixpoint write_chunks (p : path) (i : nat) (chunks : list (list Byte.byte))
         (err : option exn) : M unit :=
  match chunks with
  | [] => match err with Some e => raise e | None => ret tt end
  | c :: r => file_write p i c;; write_chunks p (S i) r err
  end.

(** [subprocess.run(argv, check=True, capture_output=True, text=True)]:
    gives the captured standard output and standard error.  An empty
    argument list fails on [args[0]] before any process is started. *)
Definition subprocess_run (argv : list string) : M (string * string) :=
  match argv with
  | [] => raise (IndexError "list index out of range")
  | _ :: _ =>
      tr <- get_trace;;
      emit (EvSpawn argv);;
      match popen w tr argv with
      | SpawnRaises e => raise e
      | Exited rc out err =>
          if rc =? 0 then ret (out, err)
          else raise (CalledProcessError argv rc out err
                        (called_process_error_str w argv rc))
      end
  end.

(** [xs[0]] *)
Definition list_first (xs : list string) : M string :=
  match xs with
  | [] => raise (IndexError "list index out of range")
  | x :: _ => ret x
  end.

(** ** The script *)

Definition NOAA_IMAGE_URL : string :=
  "https://cdn.star.nesdis.noaa.gov/GOES19/ABI/FD/GEOCOLOR/latest.jpg".
Definition SAVE_DIR : path :=
  path_join (path_join (home w) ".cache") "noaa_wallpaper".
Definition SAVE_FILENAME : string := "noaa_latest_background.jpg".
Definition IMAGE_PATH : path := path_join SAVE_DIR SAVE_FILENAME.

(** The body of the [try] statement of [download_image]. *)
Definition download_image_try (url : string) (save_path : path) : M bool :=
  mkdir_parents (parent save_path);;
  response <- requests_get url;;
  raise_for_status response;;
  open_wb save_path;;
  write_chunks save_path 0 (body_chunks response) (body_error response);;
  print ("-> Image successfully downloaded and saved to: "
         +:+ path_str save_path);;
  ret true.

Definition download_image (url : string) (save_path : path) : M bool :=
  print ("-> Attempting to download image from: " +:+ url);;
  try_except
    (download_image_try url save_path)
    (fun e =>
       if is_RequestException e then
         eprint ("!! Error downloading image: " +:+ exn_str e);;
         ret false
       else if is_OSError e then
         eprint ("!! Error saving image file: " +:+ exn_str e);;
         ret false
       else
         eprint ("!! An unexpected error occurred during download: "
                 +:+ exn_str e);;
         ret false).

(** The result is [Some "CINNAMON"], [Some "MATE"], [Some "XFCE"] or
    Python's [None]. *)
Definition get_desktop_environment : M (option string) :=
  let fallback : M (option string) :=
    cinnamon <- which "cinnamon";;
    if cinnamon then
      print "-> Detected desktop environment: CINNAMON (fallback check)";;
      ret (Some "CINNAMON")
    else
      mate <- which "mate-session";;
      if mate then
        print "-> Detected desktop environment: MATE (fallback check)";;
        ret (Some "MATE")
      else
        xfce <- which "xfce4-session";;
        if xfce then
          print "-> Detected desktop environment: XFCE (fallback check)";;
          ret (Some "XFCE")
        else
          eprint "!! Could not reliably detect desktop environment.";;
          ret None in
  value <- environ_get "XDG_CURRENT_DESKTOP" "";;
  let desktop := PyStr.upper value in
  if PyStr.truthy desktop then
    print ("-> Detected desktop environment: " +:+ desktop);;
    if PyStr.contains "CINNAMON" desktop then ret (Some "CINNAMON")
    else if PyStr.contains "MATE" desktop then ret (Some "MATE")
    else if PyStr.contains "XFCE" desktop then ret (Some "XFCE")
    else fallback
  else fallback.

Definition run_command (command_list : list string) : M bool :=
  print ("   -> Executing: " +:+ PyStr.join " " command_list);;
  try_except
    (subprocess_run command_list;;
     print "   -> Command executed successfully.";;
     ret true)
    (fun e =>
       match e with
       | FileNotFoundError _ =>
           first <- list_first command_list;;
           eprint ("!! Error: Command not found: " +:+ first
                   +:+ ". Is it installed and in PATH?");;
           ret false
       | CalledProcessError _ rc out err _ =>
           eprint ("!! Error executing command: "
                   +:+ PyStr.join " " command_list);;
           eprint ("   Return Code: " +:+ PyStr.of_int rc);;
           eprint ("   STDERR: " +:+ err);;
           eprint ("   STDOUT: " +:+ out);;
           ret false
       | _ =>
           eprint ("!! An unexpected error occurred running the command: "
                   +:+ exn_str e);;
           ret false
       end).

(** [de == name] for the value returned by the detection. *)
Definition de_is (de : option string) (name : string) : bool :=
  match de with
  | Some s => String.eqb s name
  | None => false
  end.

(** [str(de)] *)
Definition de_str (de : option string) : string :=
  match de with Some s => s | None => "None" end.

Definition cinnamon_command (abs_image_path : string) : list string :=
  ["gsettings"; "set"; "org.cinnamon.desktop.background"; "picture-uri";
   "file://" +:+ abs_image_path].

Definition mate_command (abs_image_path : string) : list string :=
  ["gsettings"; "set"; "org.mate.background"; "picture-filename";
   abs_image_path].

Definition xfce_list_command : list string :=
  ["xfconf-query"; "-c"; "xfce4-desktop"; "-l"].

Definition xfce_set_command (prop abs_image_path : string) : list string :=
  ["xfconf-query"; "-c"; "xfce4-desktop"; "-p"; prop; "-s"; abs_image_path].

(** The test of the list comprehension that selects [image_props]. *)
Definition is_image_prop (p : string) : bool :=
  PyStr.contains "last-image" p || PyStr.contains "image-path" p.

(** The code after the dispatch on [de], which the CINNAMON and MATE
    branches fall through to: [if command: return run_command(command)]
    and otherwise [return False]. *)
Definition execute_command (command : list string) : M bool :=
  match command with
  | [] => ret false
  | _ :: _ => run_command command
  end.

Definition set_linux_background (image_path : path) : M bool :=
  print ("-> Attempting to set background to: " +:+ path_str image_path);;
  let abs_image_path := path_str (path_resolve w image_path) in
  fs <- get_fs;;
  if negb (is_file fs image_path) then
    eprint ("!! Error: Image file not found at " +:+ abs_image_path);;
    ret false
  else
    de <- get_desktop_environment;;
    if de_is de "CINNAMON" then
      execute_command (cinnamon_command abs_image_path)
    else if de_is de "MATE" then
      execute_command (mate_command abs_image_path)
    else if de_is de "XFCE" then
      try_except
        (result <- subprocess_run xfce_list_command;;
         let props := PyStr.splitlines (fst result) in
         let image_props := List.filter is_image_prop props in
         match image_props with
         | [] =>
             eprint "!! Error: Could not find XFCE background properties via xfconf-query.";;
             ret false
         | _ :: _ =>
             for_each image_props (fun prop =>
               print ("   -> Setting XFCE property: " +:+ prop);;
               run_command (xfce_set_command prop abs_image_path);;
               ret tt);;
             ret true
         end)
        (fun e =>
           match e with
           | FileNotFoundError _ =>
               eprint "!! Error: 'xfconf-query' command not found. Is XFCE installed correctly?";;
               ret false
           | CalledProcessError _ _ _ _ _ =>
               eprint ("!! Error running xfconf-query to list properties: "
                       +:+ exn_str e);;
               ret false
           | _ =>
               eprint ("!! An unexpected error occurred during XFCE setup: "
                       +:+ exn_str e);;
               ret false
           end)
    else
      eprint ("!! Error: Unsupported or undetected desktop environment: "
              +:+ de_str de);;
      eprint "   Please manually set the background using your desktop's settings tool.";;
      ret false.

Definition main : M unit :=
  print "--- NOAA GOES-19 Background Setter (Linux) ---";;
  downloaded <- download_image NOAA_IMAGE_URL IMAGE_PATH;;
  (if downloaded then
     emit (EvSleep 1);;
     done <- set_linux_background IMAGE_PATH;;
     if negb done then print "!! Background could not be set automatically."
     else ret tt
   else print "!! Background not updated due to download failure.");;
  print "--- Script finished ---".

End Script.


(** ** Reading a run *)

(** The argument lists of the child processes started, in order. *)
Fixpoint spawned (tr : list event) : list (list string) :=
match tr with
| [] => []
| EvSpawn argv :: r => argv :: spawned r
| _ :: r => spawned r
end.

(** The state after one more event. *)
Definition after (s : state) (evs : list event) : state :=
mkState (st_fs s) (st_trace s ++ evs)%list.

(** The world [w] with the desktop variable set to [v]. *)
Definition with_desktop (w : World) (v : string) : World :=
mkWorld (<[ "XDG_CURRENT_DESKTOP" := v ]> (environ w)) (shutil_which w)
        (home w) (path_resolve w) (popen w) (http_get w) (os_fault w)
        (called_process_error_str w).

(** The value of the desktop variable as the detection reads it. *)
Definition desktop_of (w : World) : string :=
PyStr.upper (match environ w !! "XDG_CURRENT_DESKTOP" with
             | Some v => v
             | None => ""
             end).

(** Whether [shutil.which name] is true in [w]. *)
Definition on_path (w : World) (name : string) : bool :=
match shutil_which w name with
| Some found => PyStr.truthy found
| None => false
end.

(** [names_desktop d] : the variable, upper-cased, names one of the three
    desktops. *)
Definition names_desktop (d : string) : bool :=
PyStr.contains "CINNAMON" d || PyStr.contains "MATE" d
|| PyStr.contains "XFCE" d.

(** The state in which [set_linux_background] dispatches on the detected
    desktop, and the desktop detected, when the image file exists. *)
Definition at_dispatch (w : World) (image_path : path) (s : state)
  : result (option string) * state :=
get_desktop_environment w
  (after s [EvPrint Stdout ("-> Attempting to set background to: "
                            +:+ path_str image_path)]).

(** The events of the detection up to the end of the variable test. *)
Definition variable_events (w : World) : list event :=
EvGetenv "XDG_CURRENT_DESKTOP" ::
(if PyStr.truthy (desktop_of w)
 then [EvPrint Stdout ("-> Detected desktop environment: " +:+ desktop_of w)]
 else []).

(** ** The outcomes of the command runner, as the specification names them *)

Inductive run_kind : Type :=
| RunSucceeded
| RunNotFound
| RunNonZero (returncode : Z) (stdout stderr : string)
| RunUnexpected (e : exn).

(** The kind of failure an exception of [subprocess.run] stands for. *)
Definition kind_of_exn (e : exn) : run_kind :=
match e with
| FileNotFoundError _ => RunNotFound
| CalledProcessError _ rc out err _ => RunNonZero rc out err
| _ => RunUnexpected e
end.

(** The kind of outcome of running [argv] after the events [tr]. *)
Definition run_kind_of (w : World) (tr : list event) (argv : list string)
  : run_kind :=
match argv with
| [] => RunUnexpected (IndexError "list index out of range")
| _ :: _ =>
    match popen w tr argv with
    | Exited rc out err => if rc =? 0 then RunSucceeded else RunNonZero rc out err
    | SpawnRaises e => kind_of_exn e
    end
end.

Definition run_succeeded (k : run_kind) : bool :=
match k with RunSucceeded => true | _ => false end.

(** The same kind of outcome, whatever the details. *)
Definition same_kind (k k' : run_kind) : bool :=
match k, k' with
| RunSucceeded, RunSucceeded | RunNotFound, RunNotFound
| RunNonZero _ _ _, RunNonZero _ _ _ | RunUnexpected _, RunUnexpected _ => true
| _, _ => false
end.

(** What the runner prints for each kind of outcome. *)
Definition run_report (argv : list string) (k : run_kind) : list event :=
match k with
| RunSucceeded => [EvPrint Stdout "   -> Command executed successfully."]
| RunNotFound =>
    [EvPrint Stderr ("!! Error: Command not found: " +:+ hd "" argv
                     +:+ ". Is it installed and in PATH?")]
| RunNonZero rc out err =>
    [EvPrint Stderr ("!! Error executing command: " +:+ PyStr.join " " argv);
     EvPrint Stderr ("   Return Code: " +:+ PyStr.of_int rc);
     EvPrint Stderr ("   STDERR: " +:+ err);
     EvPrint Stderr ("   STDOUT: " +:+ out)]
| RunUnexpected e =>
    [EvPrint Stderr ("!! An unexpected error occurred running the command: "
                     +:+ exn_str e)]
end.

(** The events of one call of the runner on [argv] after the events [tr]. *)
Definition run_events (w : World) (tr : list event) (argv : list string)
  : list event :=
let announce :=
  EvPrint Stdout ("   -> Executing: " +:+ PyStr.join " " argv) in
(announce ::
 match argv with [] => [] | _ :: _ => [EvSpawn argv] end ++
 run_report argv (run_kind_of w (tr ++ [announce]) argv))%list.

(** ** Sample worlds and states *)

(** A world with an empty environment, an empty search path, children
    that exit with status zero and no network. *)
Definition quiet_world : World :=
mkWorld ∅ (fun _ => None) ["home"; "user"] (fun p => p)
        (fun _ _ => Exited 0 "" "")
        (fun _ _ => HttpRaises (RequestException "connection refused"))
        (fun _ => None) (fun _ _ => "non-zero exit status").

(** [w] with the executables [names] on the search path, under /usr/bin. *)
Definition with_path (w : World) (names : list string) : World :=
mkWorld (environ w)
        (fun n => if existsb (String.eqb n) names
                  then Some ("/usr/bin/" +:+ n) else None)
        (home w) (path_resolve w) (popen w) (http_get w) (os_fault w)
        (called_process_error_str w).

(** [w] with the children answered by [f]. *)
Definition with_popen (w : World)
  (f : list event -> list string -> proc_outcome) : World :=
mkWorld (environ w) (shutil_which w) (home w) (path_resolve w) f
        (http_get w) (os_fault w) (called_process_error_str w).

(** [w] with the HTTP server answering [r] to every request. *)
Definition with_http (w : World) (r : http_outcome) : World :=
mkWorld (environ w) (shutil_which w) (home w) (path_resolve w) (popen w)
        (fun _ _ => r) (os_fault w) (called_process_error_str w).

Definition empty_fs : FS := mkFS ∅ ∅.

Definition empty_state : state := mkState empty_fs [].

(** The cache file of [quiet_world]. *)
Definition sample_image : path :=
["home"; "user"; ".cache"; "noaa_wallpaper"; "noaa_latest_background.jpg"].

(** A state in which the cache directory and the cache file exist; the
    file holds one byte. *)
Definition cached_state : state :=
mkState (mkFS (list_to_set (ancestors (parent sample_image)))
              {[ sample_image := [Byte.x01] ]}) [].

(** ** The failures of the fetcher, as the specification names them *)

(** What the fetcher reports for an exception: a transfer error, a
    file-system error, or any other error. *)
Definition download_report (e : exn) : string :=
match e with
| RequestException m => "!! Error downloading image: " +:+ m
| FileNotFoundError m | OSError m => "!! Error saving image file: " +:+ m
| _ => "!! An unexpected error occurred during download: " +:+ exn_str e
end.

(** The state in which the [try] statement of the fetcher starts. *)
Definition at_fetch (url : string) (s : state) : state :=
after s [EvPrint Stdout ("-> Attempting to download image from: " +:+ url)].

(** A server that answers 300 Multiple Choices with a one-byte body. *)
Definition choices_world : World :=
with_http quiet_world (HttpResponse 300 "Multiple Choices" [[Byte.x3c]] None).

(** A server that answers 404. *)
Definition missing_world : World :=
with_http quiet_world (HttpResponse 404 "Not Found" [[Byte.x3c]] None).

(** The line feed. *)
Definition nl : string := String "010" "".

(** What [xfconf-query -c xfce4-desktop -l] prints on a machine with two
    monitors. *)
Definition sample_listing : string :=
"/backdrop/screen0/monitor0/workspace0/last-image" +:+ nl +:+
"/backdrop/single-workspace-mode" +:+ nl +:+
"/backdrop/screen0/monitor1/image-path" +:+ nl.

(** An XFCE session in which the discovery succeeds and the first set
    command fails. *)
Definition xfce_world : World :=
with_popen (with_desktop quiet_world "XFCE")
  (fun tr argv =>
     if String.eqb (nth 3 argv "") "-l" then Exited 0 sample_listing ""
     else match spawned tr with
          | [_] => Exited 1 "" "Property does not exist"
          | _ => Exited 0 "" ""
          end).

(** A world in which no command can be found. *)
Definition bare_world : World :=
with_popen quiet_world
  (fun _ argv =>
     SpawnRaises (FileNotFoundError
                    ("[Errno 2] No such file or directory: " +:+ hd "" argv))).

(** ** More ways to read a run *)

(** The URLs requested, in order. *)
Fixpoint requested (tr : list event) : list string :=
match tr with
| [] => []
| EvHttpGet url _ :: r => url :: requested r
| _ :: r => requested r
end.

(** The names probed on the search path, in order. *)
Fixpoint probed (tr : list event) : list string :=
match tr with
| [] => []
| EvWhich name :: r => name :: probed r
| _ :: r => probed r
end.

(** The pauses taken, in order. *)
Fixpoint slept (tr : list event) : list Z :=
match tr with
| [] => []
| EvSleep n :: r => n :: slept r
| _ :: r => slept r
end.


(** A server that sends a three-byte image in two chunks. *)
Definition image_world : World :=
with_http quiet_world
  (HttpResponse 200 "OK" [[Byte.xff; Byte.xd8]; [Byte.xd9]] None).

(** A server whose transfer breaks after the first chunk. *)
Definition broken_world : World :=
with_http quiet_world
  (HttpResponse 200 "OK" [[Byte.xff; Byte.xd8]]
     (Some (RequestException "Connection broken: IncompleteRead"))).


(** A state in which /home is a regular file. *)
Definition blocked_state : state :=
mkState (mkFS ∅ {[ ["home"] := [Byte.x00] ]}) [].

(** An XFCE session without xfconf-query. *)
Definition xfce_bare_world : World :=
with_popen (with_desktop quiet_world "XFCE") (popen bare_world).

(** A MATE session in which gsettings exits with status 1. *)
Definition mate_failing_world : World :=
with_popen (with_desktop quiet_world "MATE")
  (fun _ _ => Exited 1 "" "No such schema").

(** ** Properties of computations *)

(** [s'] has the events of [s] and possibly more after them. *)
Definition extends (s s' : state) : Prop :=
exists evs, st_trace s' = (st_trace s ++ evs)%list.

(** [m] only adds events. *)
Definition grows {A} (m : M A) : Prop :=
forall s, extends s (snd (m s)).

(** [m] leaves the file system as it is. *)
Definition keeps_fs {A} (m : M A) : Prop :=
forall s, st_fs (snd (m s)) = st_fs s.

(** [m] never ends with an exception. *)
Definition returns {A} (m : M A) : Prop :=
forall s, exists a, fst (m s) = Ok a.

(** A MATE machine, recognised by its session executable, and a server
    that sends the image. *)
Definition mate_image_world : World :=
with_http (with_path quiet_world ["mate-session"])
  (HttpResponse 200 "OK" [[Byte.xff; Byte.xd8]; [Byte.xd9]] None).

(** The state in which the script calls the fetcher. *)
Definition at_download (s : state) : state :=
after s [EvPrint Stdout "--- NOAA GOES-19 Background Setter (Linux) ---"].

(** ** Basic facts *)

Ltac run :=
  unfold bind, ret, raise, try_except, emit, print, eprint, get_fs, put_fs,
    get_trace, after in *; simpl in *.

Lemma prefix_cons (c c' : ascii) (n h : string) :
  String.prefix (String c n) (String c' h)
  = if Ascii.ascii_dec c c' then String.prefix n h else false.
Proof. reflexivity. Qed.

Lemma prefix_nil_r (n : string) :
  String.prefix n "" = true -> n = "".
Proof. destruct n; [reflexivity | discriminate]. Qed.

Lemma append_cons (c : ascii) (a b : string) :
  String c a +:+ b = String c (a +:+ b).
Proof. reflexivity. Qed.

Lemma prefix_app (n b : string) : String.prefix n (n +:+ b) = true.
Proof.
  induction n as [|c n IH].
  - now destruct b.
  - rewrite append_cons, prefix_cons.
    destruct (Ascii.ascii_dec c c); [exact IH | congruence].
Qed.

Lemma prefix_split (n h : string) :
  String.prefix n h = true -> exists b, h = n +:+ b.
Proof.
  revert h; induction n as [|c n IH]; intros h H.
  - now exists h.
  - destruct h as [|c' h]; [discriminate|].
    rewrite prefix_cons in H.
    destruct (Ascii.ascii_dec c c') as [E|E]; [subst c'|discriminate].
    destruct (IH _ H) as [b ->]. now exists b.
Qed.

Lemma contains_cons (n : string) (c : ascii) (h : string) :
  PyStr.contains n (String c h)
  = String.prefix n (String c h) || PyStr.contains n h.
Proof. reflexivity. Qed.

(** [PyStr.contains] is the substring test. *)
Lemma contains_spec (n h : string) :
  PyStr.contains n h = true <-> exists a b, h = a +:+ n +:+ b.
Proof.
  split.
  - induction h as [|c h IH]; intros H.
    + change (String.prefix n "" || false = true) in H.
      rewrite orb_false_r in H. apply prefix_nil_r in H. subst n.
      now exists "", "".
    + rewrite contains_cons in H. apply orb_true_iff in H as [H|H].
      * destruct (prefix_split _ _ H) as [b Hb]. exists "", b. exact Hb.
      * destruct (IH H) as (a & b & ->). now exists (String c a), b.
  - intros (a & b & ->). induction a as [|c a IH].
    + change ("" +:+ n +:+ b) with (n +:+ b).
      destruct (n +:+ b) as [|c r] eqn:E.
      * destruct n; [reflexivity | discriminate].
      * rewrite contains_cons, <- E, prefix_app. reflexivity.
    + rewrite append_cons, contains_cons, IH. apply orb_true_r.
Qed.

Lemma spawned_app (a b : list event) :
  spawned (a ++ b) = (spawned a ++ spawned b)%list.
Proof.
  induction a as [|e a IH]; simpl; [reflexivity|].
  destruct e; simpl; rewrite IH; reflexivity.
Qed.

(** ** The background setter without a cached file *)

(** C1. When the cached image file does not exist, the setter returns
    failure at once: all it does is print its announcement and the
    "file not found" diagnostic; it reads no environment variable, probes
    no executable and starts no process. *)
Theorem missing_file_fails_immediately (w : World) (p : path) (s : state) :
  fs_files (st_fs s) !! p = None ->
  set_linux_background w p s =
    (Ok false,
     after s [EvPrint Stdout ("-> Attempting to set background to: "
                              +:+ path_str p);
              EvPrint Stderr ("!! Error: Image file not found at "
                              +:+ path_str (path_resolve w p))]).
Proof.
  intros H. unfold set_linux_background, is_file. run. rewrite H. simpl.
  now rewrite <- app_assoc.
Qed.

(** The setter in a state without the cache file. *)
Lemma missing_file_fails_immediately_witness :
  fs_files (st_fs empty_state) !! sample_image = None
  /\ set_linux_background quiet_world sample_image empty_state
     = (Ok false,
        after empty_state
          [EvPrint Stdout ("-> Attempting to set background to: "
                           +:+ path_str sample_image);
           EvPrint Stderr ("!! Error: Image file not found at "
                           +:+ path_str (path_resolve quiet_world sample_image))]).
Proof.
  split; [reflexivity|].
  apply (missing_file_fails_immediately quiet_world sample_image empty_state).
  reflexivity.
Defined.


(** ** Detection of the desktop environment *)

Lemma contains_nonempty (n d : string) :
  PyStr.contains n d = true -> PyStr.truthy n = true -> PyStr.truthy d = true.
Proof.
  destruct d; [|reflexivity]. destruct n; [discriminate|].
  intros H _. discriminate H.
Qed.

Lemma names_desktop_truthy (d : string) :
  names_desktop d = true -> PyStr.truthy d = true.
Proof.
  unfold names_desktop. intros H.
  apply orb_true_iff in H as [H|H]; [apply orb_true_iff in H as [H|H]|];
    eapply contains_nonempty; eauto.
Qed.

(** The detection when the variable decides. *)
Lemma detection_by_variable (w : World) (s : state) :
  names_desktop (desktop_of w) = true ->
  get_desktop_environment w s =
    (Ok (Some (if PyStr.contains "CINNAMON" (desktop_of w) then "CINNAMON"
               else if PyStr.contains "MATE" (desktop_of w) then "MATE"
               else "XFCE")),
     after s (variable_events w)).
Proof.
  intros H. pose proof (names_desktop_truthy _ H) as T.
  unfold get_desktop_environment, environ_get, variable_events. run.
  fold (desktop_of w). rewrite T. unfold names_desktop in H.
  destruct (PyStr.contains "CINNAMON" (desktop_of w)); simpl.
  { now rewrite <- app_assoc. }
  destruct (PyStr.contains "MATE" (desktop_of w)); simpl.
  { now rewrite <- app_assoc. }
  simpl in H. rewrite H. now rewrite <- app_assoc.
Qed.

(** The detection when the variable is absent, empty or names none of the
    three desktops: the executables are probed in order. *)
Lemma detection_by_probing (w : World) (s : state) :
  names_desktop (desktop_of w) = false ->
  get_desktop_environment w s =
    let seen := after s (variable_events w) in
    if on_path w "cinnamon" then
      (Ok (Some "CINNAMON"),
       after seen [EvWhich "cinnamon";
                   EvPrint Stdout "-> Detected desktop environment: CINNAMON (fallback check)"])
    else if on_path w "mate-session" then
      (Ok (Some "MATE"),
       after seen [EvWhich "cinnamon"; EvWhich "mate-session";
                   EvPrint Stdout "-> Detected desktop environment: MATE (fallback check)"])
    else if on_path w "xfce4-session" then
      (Ok (Some "XFCE"),
       after seen [EvWhich "cinnamon"; EvWhich "mate-session";
                   EvWhich "xfce4-session";
                   EvPrint Stdout "-> Detected desktop environment: XFCE (fallback check)"])
    else
      (Ok None,
       after seen [EvWhich "cinnamon"; EvWhich "mate-session";
                   EvWhich "xfce4-session";
                   EvPrint Stderr "!! Could not reliably detect desktop environment."]).
Proof.
  intros H. unfold names_desktop in H.
  apply orb_false_iff in H as [H HX]. apply orb_false_iff in H as [HC HM].
  unfold get_desktop_environment, environ_get, which, variable_events. run.
  fold (desktop_of w). fold (on_path w "cinnamon").
  fold (on_path w "mate-session"). fold (on_path w "xfce4-session").
  rewrite HC, HM, HX.
  destruct (PyStr.truthy (desktop_of w)); simpl;
    destruct (on_path w "cinnamon"); simpl;
    try (repeat rewrite <- app_assoc; reflexivity);
    destruct (on_path w "mate-session"); simpl;
    try (repeat rewrite <- app_assoc; reflexivity);
    destruct (on_path w "xfce4-session"); simpl;
    repeat rewrite <- app_assoc; reflexivity.
Qed.

Lemma desktop_of_with_desktop (w : World) (v : string) :
  desktop_of (with_desktop w v) = PyStr.upper v.
Proof. unfold desktop_of, with_desktop. simpl. now rewrite lookup_insert_eq. Qed.

(** C4. The detection reads the desktop variable without regard to case
    and looks in it for CINNAMON, MATE and XFCE, so that "X-Cinnamon"
    gives CINNAMON; when the variable is absent or names none of them, it
    probes the search path for cinnamon, then mate-session, then
    xfce4-session, so that without the variable and with mate-session the
    first executable found, the result is MATE; when nothing matches the
    result is Python's None and a diagnostic goes to the error stream. *)
Theorem detection_rules (w : World) (s : state) :
  (forall v v', PyStr.upper v = PyStr.upper v' ->
     get_desktop_environment (with_desktop w v) s
     = get_desktop_environment (with_desktop w v') s)
  /\ (names_desktop (desktop_of w) = true ->
      exists name,
        get_desktop_environment w s
        = (Ok (Some name), after s (variable_events w))
        /\ In name ["CINNAMON"; "MATE"; "XFCE"]
        /\ PyStr.contains name (desktop_of w) = true)
  /\ (environ w !! "XDG_CURRENT_DESKTOP" = Some "X-Cinnamon" ->
      fst (get_desktop_environment w s) = Ok (Some "CINNAMON"))
  /\ (names_desktop (desktop_of w) = false ->
      let seen := after s (variable_events w) in
      get_desktop_environment w s =
        if on_path w "cinnamon" then
          (Ok (Some "CINNAMON"),
           after seen [EvWhich "cinnamon";
                       EvPrint Stdout "-> Detected desktop environment: CINNAMON (fallback check)"])
        else if on_path w "mate-session" then
          (Ok (Some "MATE"),
           after seen [EvWhich "cinnamon"; EvWhich "mate-session";
                       EvPrint Stdout "-> Detected desktop environment: MATE (fallback check)"])
        else if on_path w "xfce4-session" then
          (Ok (Some "XFCE"),
           after seen [EvWhich "cinnamon"; EvWhich "mate-session";
                       EvWhich "xfce4-session";
                       EvPrint Stdout "-> Detected desktop environment: XFCE (fallback check)"])
        else
          (Ok None,
           after seen [EvWhich "cinnamon"; EvWhich "mate-session";
                       EvWhich "xfce4-session";
                       EvPrint Stderr "!! Could not reliably detect desktop environment."]))
  /\ ((environ w !! "XDG_CURRENT_DESKTOP" = None
       \/ environ w !! "XDG_CURRENT_DESKTOP" = Some "") ->
      on_path w "cinnamon" = false -> on_path w "mate-session" = true ->
      fst (get_desktop_environment w s) = Ok (Some "MATE")).
Proof.
  repeat split.
  - intros v v' E.
    destruct (names_desktop (PyStr.upper v)) eqn:N.
    + rewrite !detection_by_variable, !desktop_of_with_desktop;
        rewrite ?desktop_of_with_desktop; try congruence.
      unfold variable_events. rewrite !desktop_of_with_desktop, E. reflexivity.
    + rewrite !detection_by_probing;
        rewrite ?desktop_of_with_desktop; try congruence.
      unfold variable_events. rewrite !desktop_of_with_desktop, E. reflexivity.
  - intros H. rewrite (detection_by_variable _ _ H).
    unfold names_desktop in H.
    destruct (PyStr.contains "CINNAMON" (desktop_of w)) eqn:HC.
    { exists "CINNAMON". simpl. auto. }
    destruct (PyStr.contains "MATE" (desktop_of w)) eqn:HM.
    { exists "MATE". simpl. auto. }
    exists "XFCE". simpl in *. auto 6.
  - intros H.
    assert (D : desktop_of w = "X-CINNAMON") by (unfold desktop_of; now rewrite H).
    rewrite detection_by_variable; rewrite D; reflexivity.
  - intros H. exact (detection_by_probing w s H).
  - intros H HC HM.
    assert (D : desktop_of w = "")
      by (unfold desktop_of; destruct H as [-> | ->]; reflexivity).
    rewrite detection_by_probing; rewrite ?D; [|reflexivity].
    rewrite HC, HM. reflexivity.
Qed.

(** The rules of the detection at concrete worlds: the variable set to
    "x-cinnamon" or to "X-Cinnamon", and no variable with mate-session
    and xfce4-session on the search path. *)
Lemma detection_rules_witness :
  get_desktop_environment (with_desktop quiet_world "x-cinnamon") empty_state
  = get_desktop_environment (with_desktop quiet_world "X-Cinnamon") empty_state
  /\ fst (get_desktop_environment (with_desktop quiet_world "X-Cinnamon")
            empty_state) = Ok (Some "CINNAMON")
  /\ fst (get_desktop_environment
            (with_path quiet_world ["xfce4-session"; "mate-session"])
            empty_state) = Ok (Some "MATE").
Proof.
  split; [|split].
  - apply (proj1 (detection_rules quiet_world empty_state)). reflexivity.
  - apply (detection_rules (with_desktop quiet_world "X-Cinnamon") empty_state).
    vm_compute. reflexivity.
  - apply (detection_rules
             (with_path quiet_world ["xfce4-session"; "mate-session"])
             empty_state).
    + left. vm_compute. reflexivity.
    + reflexivity.
    + reflexivity.
Defined.

(** C9. When the desktop variable names several of the three desktops,
    the detection returns the first of CINNAMON, MATE, XFCE that occurs in
    it, whatever their positions in the value: the order of the tests on
    the variable is the order of the probes. *)
Theorem variable_priority (w : World) (s : state) (name : string) :
  List.find (fun n => PyStr.contains n (desktop_of w))
            ["CINNAMON"; "MATE"; "XFCE"] = Some name ->
  get_desktop_environment w s = (Ok (Some name), after s (variable_events w)).
Proof.
  intros H. simpl in H.
  destruct (PyStr.contains "CINNAMON" (desktop_of w)) eqn:HC.
  { injection H as <-. rewrite detection_by_variable.
    - now rewrite HC.
    - unfold names_desktop. now rewrite HC. }
  destruct (PyStr.contains "MATE" (desktop_of w)) eqn:HM.
  { injection H as <-. rewrite detection_by_variable.
    - now rewrite HC, HM.
    - unfold names_desktop. now rewrite HC, HM. }
  destruct (PyStr.contains "XFCE" (desktop_of w)) eqn:HX; [|discriminate].
  injection H as <-. rewrite detection_by_variable.
  - now rewrite HC, HM.
  - unfold names_desktop. now rewrite HC, HM, HX.
Qed.

(** A value that names MATE before CINNAMON, and one that names XFCE
    before MATE. *)
Lemma variable_priority_witness :
  fst (get_desktop_environment (with_desktop quiet_world "mate:cinnamon")
         empty_state) = Ok (Some "CINNAMON")
  /\ fst (get_desktop_environment (with_desktop quiet_world "Xfce;Mate")
            empty_state) = Ok (Some "MATE").
Proof.
  split.
  - rewrite (variable_priority (with_desktop quiet_world "mate:cinnamon")
               empty_state "CINNAMON"); [reflexivity|].
    vm_compute. reflexivity.
  - rewrite (variable_priority (with_desktop quiet_world "Xfce;Mate")
               empty_state "MATE"); [reflexivity|].
    vm_compute. reflexivity.
Defined.

(** ** The command runner *)

(** The runner never raises: its result and its events are determined by
    the kind of outcome of the command. *)
Lemma run_command_total (w : World) (argv : list string) (s : state) :
  run_command w argv s =
    (Ok (run_succeeded
           (run_kind_of w
              (st_trace s ++ [EvPrint Stdout ("   -> Executing: "
                                              +:+ PyStr.join " " argv)])
              argv)),
     after s (run_events w (st_trace s) argv)).
Proof.
  unfold run_command, run_events, run_kind_of, subprocess_run, list_first.
  run. destruct argv as [|a rest]; simpl.
  { now rewrite <- !app_assoc. }
  run.
  destruct (popen w _ (a :: rest)) as [rc out err|e]; simpl.
  - destruct (rc =? 0); simpl; now rewrite <- !app_assoc.
  - destruct e; simpl; now rewrite <- !app_assoc.
Qed.

(** C8. The runner returns a boolean, true exactly when the command was
    started and exited with status zero, and it tells three kinds of
    failure apart, each with a report of its own: the command was not
    found; the command exited with a non-zero status, reported with the
    status and the captured standard error and standard output; any other
    error.  A command that does not exist gets the "Command not found"
    report. *)
Theorem runner_classifies_outcomes (w : World) (argv : list string) (s : state) :
  let tr := (st_trace s ++ [EvPrint Stdout ("   -> Executing: "
                                            +:+ PyStr.join " " argv)])%list in
  run_command w argv s
  = (Ok (run_succeeded (run_kind_of w tr argv)),
     after s (run_events w (st_trace s) argv))
  /\ (fst (run_command w argv s) = Ok true
      <-> argv <> [] /\ exists out err, popen w tr argv = Exited 0 out err)
  /\ (forall k1 k2, same_kind k1 k2 = false ->
        run_report argv k1 <> run_report argv k2)
  /\ (forall rc out err, popen w tr argv = Exited rc out err -> rc <> 0 ->
        argv <> [] ->
        run_report argv (run_kind_of w tr argv)
        = [EvPrint Stderr ("!! Error executing command: "
                           +:+ PyStr.join " " argv);
           EvPrint Stderr ("   Return Code: " +:+ PyStr.of_int rc);
           EvPrint Stderr ("   STDERR: " +:+ err);
           EvPrint Stderr ("   STDOUT: " +:+ out)])
  /\ (forall a rest m, argv = a :: rest ->
        popen w tr argv = SpawnRaises (FileNotFoundError m) ->
        run_command w argv s
        = (Ok false,
           after s [EvPrint Stdout ("   -> Executing: "
                                    +:+ PyStr.join " " argv);
                    EvSpawn argv;
                    EvPrint Stderr ("!! Error: Command not found: " +:+ a
                                    +:+ ". Is it installed and in PATH?")])).
Proof.
  intros tr. split; [apply run_command_total|]. split; [|split; [|split]].
  - rewrite run_command_total. fold tr. simpl. unfold run_kind_of.
    destruct argv as [|a rest]; simpl.
    { split; [discriminate | intros [H _]; congruence]. }
    destruct (popen w tr (a :: rest)) as [rc out err|e].
    + destruct (rc =? 0) eqn:E; simpl.
      * apply Z.eqb_eq in E. subst rc. split; [|reflexivity].
        intros _. split; [discriminate | eauto].
      * split; [discriminate|]. intros [_ (o & e' & H)].
        injection H as -> _ _. discriminate.
    + split; [destruct e; discriminate|].
      intros [_ (o & e' & H)]. discriminate.
  - intros k1 k2 K E.
    destruct k1, k2; simpl in K; try discriminate K; simpl in E;
      try discriminate E.
  - intros rc out err H Hrc Hne. unfold run_kind_of.
    destruct argv as [|a rest]; [congruence|]. rewrite H.
    apply Z.eqb_neq in Hrc. rewrite Hrc. reflexivity.
  - intros a rest m -> H. rewrite run_command_total. fold tr.
    unfold run_events, run_kind_of. fold tr. rewrite H. reflexivity.
Qed.

(** The runner on a command that does not exist, and on one that exits
    with status zero. *)
Lemma runner_classifies_outcomes_witness :
  run_command bare_world ["no-such-tool"; "--version"] empty_state
  = (Ok false,
     after empty_state
       [EvPrint Stdout "   -> Executing: no-such-tool --version";
        EvSpawn ["no-such-tool"; "--version"];
        EvPrint Stderr "!! Error: Command not found: no-such-tool. Is it installed and in PATH?"])
  /\ fst (run_command quiet_world ["true"] empty_state) = Ok true.
Proof.
  split.
  - destruct (runner_classifies_outcomes bare_world
                ["no-such-tool"; "--version"] empty_state)
      as (_ & _ & _ & _ & H).
    apply (H "no-such-tool" ["--version"]
             "[Errno 2] No such file or directory: no-such-tool");
      reflexivity.
  - destruct (runner_classifies_outcomes quiet_world ["true"] empty_state)
      as (_ & H & _).
    apply H. split; [discriminate|]. exists "", "". reflexivity.
Defined.


(** ** The dispatch of the background setter *)

(** The detection always returns; it starts no process and leaves the
    file system alone. *)
Lemma detection_effect (w : World) (s : state) :
  exists de evs,
    get_desktop_environment w s = (Ok de, after s evs) /\ spawned evs = [].
Proof.
  destruct (names_desktop (desktop_of w)) eqn:N.
  - rewrite (detection_by_variable _ _ N). eexists _, _. split; [reflexivity|].
    unfold variable_events. now destruct (PyStr.truthy (desktop_of w)).
  - rewrite (detection_by_probing _ _ N). cbv zeta.
    assert (V : spawned (variable_events w) = [])
      by (unfold variable_events; now destruct (PyStr.truthy (desktop_of w))).
    destruct (on_path w "cinnamon"); [|destruct (on_path w "mate-session");
      [|destruct (on_path w "xfce4-session")]];
      unfold after; simpl; rewrite <- app_assoc;
      (eexists _, _; split; [reflexivity|]);
      rewrite spawned_app, V; reflexivity.
Qed.

Lemma at_dispatch_spawned (w : World) (p : path) (s s1 : state)
      (de : option string) :
  at_dispatch w p s = (Ok de, s1) ->
  st_fs s1 = st_fs s /\ spawned (st_trace s1) = spawned (st_trace s).
Proof.
  unfold at_dispatch. intros H.
  destruct (detection_effect w
              (after s [EvPrint Stdout ("-> Attempting to set background to: "
                                        +:+ path_str p)]))
    as (de' & evs & E & Hs).
  rewrite E in H. injection H as _ <-. split; [reflexivity|].
  unfold after. simpl. rewrite !spawned_app, Hs. simpl.
  now rewrite !app_nil_r.
Qed.

Lemma run_report_spawned (argv : list string) (k : run_kind) :
  spawned (run_report argv k) = [].
Proof. now destruct k. Qed.

Lemma run_events_spawned (w : World) (tr : list event) (a : string)
      (rest : list string) :
  spawned (run_events w tr (a :: rest)) = [a :: rest].
Proof.
  unfold run_events. simpl. now rewrite run_report_spawned.
Qed.

(** The runner on a non-empty command starts that command and nothing
    else, and keeps the file system. *)
Lemma run_command_spawned (w : World) (a : string) (rest : list string)
      (s : state) :
  st_fs (snd (run_command w (a :: rest) s)) = st_fs s
  /\ spawned (st_trace (snd (run_command w (a :: rest) s)))
     = (spawned (st_trace s) ++ [a :: rest])%list.
Proof.
  rewrite run_command_total. unfold after. simpl. split; [reflexivity|].
  change (spawned (st_trace s ++ run_events w (st_trace s) (a :: rest))
          = (spawned (st_trace s) ++ [a :: rest])%list).
  now rewrite spawned_app, run_events_spawned.
Qed.

Ltac dispatch Hfile Hde :=
  unfold set_linux_background; unfold at_dispatch in Hde; run;
  rewrite Hfile; simpl; rewrite Hde; simpl.

(** C6. With the cached file in place: when CINNAMON is detected the one
    command run is [gsettings set org.cinnamon.desktop.background
    picture-uri] followed by "file://" and the absolute path of the image;
    when MATE is detected it is [gsettings set org.mate.background
    picture-filename] followed by the absolute path alone.  In both cases
    the result of the setter is the result of that command. *)
Theorem gsettings_commands (w : World) (p : path) (s s1 : state) (de : string) :
  is_file (st_fs s) p = true ->
  at_dispatch w p s = (Ok (Some de), s1) ->
  let abs_image_path := path_str (path_resolve w p) in
  (de = "CINNAMON" ->
   let command := ["gsettings"; "set"; "org.cinnamon.desktop.background";
                   "picture-uri"; "file://" +:+ abs_image_path] in
   set_linux_background w p s = run_command w command s1
   /\ spawned (st_trace (snd (set_linux_background w p s)))
      = (spawned (st_trace s) ++ [command])%list)
  /\ (de = "MATE" ->
      let command := ["gsettings"; "set"; "org.mate.background";
                      "picture-filename"; abs_image_path] in
      set_linux_background w p s = run_command w command s1
      /\ spawned (st_trace (snd (set_linux_background w p s)))
         = (spawned (st_trace s) ++ [command])%list).
Proof.
  intros Hfile Hde abs_image_path.
  destruct (at_dispatch_spawned _ _ _ _ _ Hde) as [_ Hsp].
  split; intros -> command;
    (assert (E : set_linux_background w p s = run_command w command s1)
       by (dispatch Hfile Hde; reflexivity));
    (split; [exact E|]); rewrite E; subst command;
    rewrite (proj2 (run_command_spawned w _ _ s1)), Hsp; reflexivity.
Qed.

(** The commands on a Cinnamon and on a MATE session. *)
Lemma gsettings_commands_witness :
  spawned (st_trace (snd (set_linux_background
                            (with_desktop quiet_world "X-Cinnamon")
                            sample_image cached_state)))
  = [["gsettings"; "set"; "org.cinnamon.desktop.background"; "picture-uri";
      "file:///home/user/.cache/noaa_wallpaper/noaa_latest_background.jpg"]]
  /\ spawned (st_trace (snd (set_linux_background
                               (with_desktop quiet_world "MATE")
                               sample_image cached_state)))
     = [["gsettings"; "set"; "org.mate.background"; "picture-filename";
         "/home/user/.cache/noaa_wallpaper/noaa_latest_background.jpg"]].
Proof.
  split.
  - refine (proj2 (proj1 (gsettings_commands
                            (with_desktop quiet_world "X-Cinnamon")
                            sample_image cached_state
                            (snd (at_dispatch
                                    (with_desktop quiet_world "X-Cinnamon")
                                    sample_image cached_state))
                            "CINNAMON" _ _) eq_refl));
      vm_compute; reflexivity.
  - refine (proj2 (proj2 (gsettings_commands
                            (with_desktop quiet_world "MATE")
                            sample_image cached_state
                            (snd (at_dispatch
                                    (with_desktop quiet_world "MATE")
                                    sample_image cached_state))
                            "MATE" _ _) eq_refl));
      vm_compute; reflexivity.
Defined.


(** C10. When CINNAMON or MATE is detected the command built by the
    dispatch is not empty, so the code after the dispatch runs it: its
    branch that returns failure for an empty command is never taken. *)
Theorem identified_desktop_has_command (w : World) (p : path) (s s1 : state)
        (de : string) :
  is_file (st_fs s) p = true ->
  at_dispatch w p s = (Ok (Some de), s1) ->
  de = "CINNAMON" \/ de = "MATE" ->
  let abs_image_path := path_str (path_resolve w p) in
  let command := if String.eqb de "CINNAMON"
                 then cinnamon_command abs_image_path
                 else mate_command abs_image_path in
  command <> []
  /\ set_linux_background w p s = execute_command w command s1
  /\ execute_command w command = run_command w command.
Proof.
  intros Hfile Hde [-> | ->] abs_image_path command; subst command; simpl.
  - split; [discriminate|]. split; [|reflexivity].
    dispatch Hfile Hde. reflexivity.
  - split; [discriminate|]. split; [|reflexivity].
    dispatch Hfile Hde. reflexivity.
Qed.

(** The command of a MATE session is run by the runner. *)
Lemma identified_desktop_has_command_witness :
  mate_command (path_str sample_image) <> []
  /\ execute_command quiet_world (mate_command (path_str sample_image))
     = run_command quiet_world (mate_command (path_str sample_image)).
Proof.
  pose proof (identified_desktop_has_command
                (with_desktop quiet_world "MATE") sample_image cached_state
                (snd (at_dispatch (with_desktop quiet_world "MATE")
                        sample_image cached_state))
                "MATE") as H.
  destruct H as (Hne & _ & Hrun).
  - vm_compute. reflexivity.
  - vm_compute. reflexivity.
  - right. reflexivity.
  - split; [exact Hne | exact Hrun].
Defined.


(** ** The XFCE branch *)

(** The loop over the discovered properties runs to its end whatever the
    set commands answer, and starts one set command per property. *)
Lemma xfce_loop (w : World) (abs_image_path : string) (props : list string) :
  forall s, exists s',
    for_each props
      (fun prop =>
         print ("   -> Setting XFCE property: " +:+ prop);;
         run_command w (xfce_set_command prop abs_image_path);;
         ret tt) s = (Ok tt, s')
    /\ st_fs s' = st_fs s
    /\ spawned (st_trace s')
       = (spawned (st_trace s)
          ++ map (fun prop => xfce_set_command prop abs_image_path) props)%list.
Proof.
  induction props as [|prop props IH]; intros s.
  - exists s. simpl. unfold ret. now rewrite app_nil_r.
  - cbn [for_each]. unfold bind at 1. unfold bind at 1.
    unfold print at 1, emit at 1.
    unfold bind at 1. unfold xfce_set_command at 1.
    rewrite run_command_total. unfold ret at 1.
    match goal with
    | |- context [for_each props ?body ?st] =>
        destruct (IH st) as (s' & E & Hfs & Hsp)
    end.
    exists s'. split; [exact E|]. split; [rewrite Hfs; reflexivity|].
    rewrite Hsp. unfold after. cbn [st_trace].
    rewrite !spawned_app, run_events_spawned. cbn [spawned map].
    rewrite app_nil_r, <- app_assoc. reflexivity.
Qed.

(** C2. On XFCE, when the discovery succeeds and lists at least one
    property whose name contains "last-image" or "image-path", the setter
    starts the discovery and then exactly one set command per such
    property, in the order listed, whatever each set command answers, and
    it returns success. *)
Theorem xfce_sets_every_property (w : World) (p : path) (s s1 : state)
        (out err : string) :
  is_file (st_fs s) p = true ->
  at_dispatch w p s = (Ok (Some "XFCE"), s1) ->
  popen w (st_trace s1) ["xfconf-query"; "-c"; "xfce4-desktop"; "-l"]
  = Exited 0 out err ->
  let image_props :=
    List.filter (fun line => PyStr.contains "last-image" line
                             || PyStr.contains "image-path" line)
                (PyStr.splitlines out) in
  image_props <> [] ->
  fst (set_linux_background w p s) = Ok true
  /\ spawned (st_trace (snd (set_linux_background w p s)))
     = (spawned (st_trace s)
        ++ ["xfconf-query"; "-c"; "xfce4-desktop"; "-l"]
           :: map (fun prop => ["xfconf-query"; "-c"; "xfce4-desktop"; "-p";
                                prop; "-s"; path_str (path_resolve w p)])
                  image_props)%list.
Proof.
  intros Hfile Hde Hlist image_props Hne.
  destruct (at_dispatch_spawned _ _ _ _ _ Hde) as [_ Hsp].
  dispatch Hfile Hde. unfold subprocess_run, xfce_list_command. run.
  rewrite Hlist. simpl.
  fold is_image_prop in image_props. fold image_props.
  destruct image_props as [|prop rest] eqn:E; [congruence|].
  match goal with
  | |- context [for_each (prop :: rest) ?body ?st] =>
      destruct (xfce_loop w (path_str (path_resolve w p)) (prop :: rest) st)
        as (s' & El & _ & Hl);
      change (for_each (prop :: rest) body st = (Ok tt, s')) in El
  end.
  rewrite El. simpl.
  split; [reflexivity|]. rewrite Hl. simpl.
  rewrite spawned_app, Hsp. simpl. rewrite <- app_assoc. reflexivity.
Qed.

(** Two properties are discovered and the first set command fails: both
    set commands are started and the setter returns success. *)
Lemma xfce_sets_every_property_witness :
  fst (set_linux_background xfce_world sample_image cached_state) = Ok true
  /\ spawned (st_trace (snd (set_linux_background xfce_world sample_image
                               cached_state)))
     = [["xfconf-query"; "-c"; "xfce4-desktop"; "-l"];
        ["xfconf-query"; "-c"; "xfce4-desktop"; "-p";
         "/backdrop/screen0/monitor0/workspace0/last-image"; "-s";
         "/home/user/.cache/noaa_wallpaper/noaa_latest_background.jpg"];
        ["xfconf-query"; "-c"; "xfce4-desktop"; "-p";
         "/backdrop/screen0/monitor1/image-path"; "-s";
         "/home/user/.cache/noaa_wallpaper/noaa_latest_background.jpg"]]
  /\ run_succeeded
       (run_kind_of xfce_world
          [EvSpawn ["xfconf-query"; "-c"; "xfce4-desktop"; "-l"]]
          ["xfconf-query"; "-c"; "xfce4-desktop"; "-p";
           "/backdrop/screen0/monitor0/workspace0/last-image"; "-s";
           "/home/user/.cache/noaa_wallpaper/noaa_latest_background.jpg"])
     = false.
Proof.
  pose proof (xfce_sets_every_property xfce_world sample_image cached_state
                (snd (at_dispatch xfce_world sample_image cached_state))
                sample_listing "") as H.
  destruct H as [Hok Hsp].
  - vm_compute. reflexivity.
  - vm_compute. reflexivity.
  - vm_compute. reflexivity.
  - vm_compute. discriminate.
  - split; [exact Hok|]. split; [exact Hsp|]. reflexivity.
Defined.


(** C3. On XFCE, when the discovery succeeds and lists no property whose
    name contains "last-image" or "image-path", the setter returns failure
    after the discovery and one diagnostic: it starts no set command. *)
Theorem xfce_without_properties_fails (w : World) (p : path) (s s1 : state)
        (out err : string) :
  is_file (st_fs s) p = true ->
  at_dispatch w p s = (Ok (Some "XFCE"), s1) ->
  popen w (st_trace s1) ["xfconf-query"; "-c"; "xfce4-desktop"; "-l"]
  = Exited 0 out err ->
  List.filter (fun line => PyStr.contains "last-image" line
                           || PyStr.contains "image-path" line)
              (PyStr.splitlines out) = [] ->
  set_linux_background w p s
  = (Ok false,
     after s1 [EvSpawn ["xfconf-query"; "-c"; "xfce4-desktop"; "-l"];
               EvPrint Stderr "!! Error: Could not find XFCE background properties via xfconf-query."])
  /\ spawned (st_trace (snd (set_linux_background w p s)))
     = (spawned (st_trace s)
        ++ [["xfconf-query"; "-c"; "xfce4-desktop"; "-l"]])%list.
Proof.
  intros Hfile Hde Hlist Hnone.
  destruct (at_dispatch_spawned _ _ _ _ _ Hde) as [_ Hsp].
  assert (E : set_linux_background w p s
              = (Ok false,
                 after s1 [EvSpawn ["xfconf-query"; "-c"; "xfce4-desktop"; "-l"];
                           EvPrint Stderr "!! Error: Could not find XFCE background properties via xfconf-query."])).
  { dispatch Hfile Hde. unfold subprocess_run, xfce_list_command. run.
    rewrite Hlist. simpl. fold is_image_prop in Hnone. rewrite Hnone. simpl.
    now rewrite <- app_assoc. }
  split; [exact E|]. rewrite E. unfold after. simpl.
  rewrite spawned_app, Hsp. reflexivity.
Qed.

(** The discovery prints nothing: only the discovery is started. *)
Lemma xfce_without_properties_fails_witness :
  fst (set_linux_background (with_desktop quiet_world "xfce") sample_image
         cached_state) = Ok false
  /\ spawned (st_trace (snd (set_linux_background
                               (with_desktop quiet_world "xfce")
                               sample_image cached_state)))
     = [["xfconf-query"; "-c"; "xfce4-desktop"; "-l"]].
Proof.
  pose proof (xfce_without_properties_fails (with_desktop quiet_world "xfce")
                sample_image cached_state
                (snd (at_dispatch (with_desktop quiet_world "xfce")
                        sample_image cached_state))
                "" "") as H.
  destruct H as [Hres Hsp].
  - vm_compute. reflexivity.
  - vm_compute. reflexivity.
  - vm_compute. reflexivity.
  - vm_compute. reflexivity.
  - split; [rewrite Hres; reflexivity | exact Hsp].
Defined.


(** ** The fetcher *)

(** The fetcher never raises: whatever exception its [try] statement
    ends with is reported on the error stream and turned into failure. *)
Lemma download_image_total (w : World) (url : string) (p : path) (s : state) :
  download_image w url p s =
    match download_image_try w url p (at_fetch url s) with
    | (Ok b, s') => (Ok b, s')
    | (Raise e, s') => (Ok false, after s' [EvPrint Stderr (download_report e)])
    end.
Proof.
  unfold download_image, at_fetch. run.
  destruct (download_image_try w url p _) as [[b|e] s']; [reflexivity|].
  destruct e; reflexivity.
Qed.

(** Creating directories changes neither the files nor the trace, keeps
    the directories there were and, when it succeeds, leaves every
    directory of the chain in place. *)
Lemma mkdir_chain_effect (w : World) (ds : list path) :
  forall s, exists r fs',
    mkdir_chain w ds s = (r, mkState fs' (st_trace s))
    /\ fs_files fs' = fs_files (st_fs s)
    /\ (forall d, is_dir (st_fs s) d = true -> is_dir fs' d = true)
    /\ (r = Ok tt -> forall d, In d ds -> is_dir fs' d = true).
Proof.
  induction ds as [|d ds IH]; intros s.
  - exists (Ok tt), (st_fs s). destruct s. simpl. unfold ret. simpl.
    repeat split; auto; intros _ d [].
  - cbn [mkdir_chain]. unfold bind at 1, get_fs at 1.
    destruct (is_dir (st_fs s) d) eqn:Hd.
    + destruct (IH s) as (r & fs' & E & Hf & Hmono & Hall).
      exists r, fs'. repeat split; auto.
      intros Hr d' [<- | Hin]; auto.
    + destruct (is_file (st_fs s) d) eqn:Hfile.
      * exists (Raise (OSError ("[Errno 17] File exists: " +:+ path_str d))),
          (st_fs s).
        destruct s. unfold raise. simpl. repeat split; auto. discriminate.
      * destruct (os_fault w (OpMkdir d)) as [e|].
        { exists (Raise e), (st_fs s). destruct s. unfold raise. simpl.
          repeat split; auto. discriminate. }
        unfold bind at 1, put_fs at 1.
        match goal with
        | |- context [mkdir_chain w ds ?st] =>
            destruct (IH st) as (r & fs' & E & Hf & Hmono & Hall)
        end.
        exists r, fs'. simpl in *. repeat split; auto.
        -- intros d' Hd'. apply Hmono. unfold is_dir in *. simpl.
           apply orb_true_iff in Hd' as [H|H]; apply orb_true_iff;
             [left; exact H | right].
           apply bool_decide_eq_true. apply bool_decide_eq_true in H.
           set_solver.
        -- intros Hr d' [<- | Hin]; auto.
           apply Hmono. unfold is_dir. simpl. apply orb_true_iff. right.
           apply bool_decide_eq_true. set_solver.
Qed.

(** C7. For every URL and destination the fetcher returns a boolean and
    never raises: either its [try] statement completes and it returns
    success, or the statement ends with an exception, of the transfer, of
    the file system or of any other kind, and the fetcher prints the
    report for that exception on the error stream and returns failure. *)
Theorem download_never_raises (w : World) (url : string) (p : path) (s : state) :
  (exists s', download_image_try w url p (at_fetch url s) = (Ok true, s')
              /\ download_image w url p s = (Ok true, s'))
  \/ (exists e s', download_image_try w url p (at_fetch url s) = (Raise e, s')
                   /\ download_image w url p s
                      = (Ok false,
                         after s' [EvPrint Stderr (download_report e)])).
Proof.
  rewrite download_image_total.
  destruct (download_image_try w url p (at_fetch url s)) as [[b|e] s'] eqn:E.
  - left. exists s'.
    assert (b = true); [|subst b; auto].
    unfold download_image_try in E. run.
    repeat match type of E with
           | context [match ?x with _ => _ end] => destruct x; try discriminate
           end.
    now injection E as <- _.
  - right. eauto.
Qed.

(** C5, as the code has it.  When the directories of the destination
    could be ensured and the response carries a client-error or
    server-error status (400 to 599), the fetcher returns failure, reports
    the transfer error, leaves every file as it was, the cached file
    included, and the parent directories of the destination exist. *)
Theorem error_status_keeps_cache (w : World) (url : string) (p : path)
        (s s2 : state) (status : Z) (rsn : string)
        (chunks : list (list Byte.byte)) (err : option exn) :
  mkdir_parents w (parent p) (at_fetch url s) = (Ok tt, s2) ->
  http_get w (st_trace s2) url = HttpResponse status rsn chunks err ->
  400 <= status < 600 ->
  exists m,
    download_image w url p s
    = (Ok false,
       after s2 [EvHttpGet url 30;
                 EvPrint Stderr ("!! Error downloading image: " +:+ m)])
    /\ fs_files (st_fs s2) = fs_files (st_fs s)
    /\ (forall d, In d (ancestors (parent p)) -> is_dir (st_fs s2) d = true).
Proof.
  intros Hmk Hget Hst.
  destruct (mkdir_chain_effect w (ancestors (parent p)) (at_fetch url s))
    as (r & fs' & E & Hf & _ & Hall).
  unfold mkdir_parents in Hmk. pose proof Hmk as Hmk'. rewrite E in Hmk'. injection Hmk' as -> <-.
  unfold at_fetch, after in *. cbn [st_trace st_fs] in *.
  assert (R : exists m, raise_for_status
                          {| status_code := status; reason := rsn;
                             resp_url := url; body_chunks := chunks;
                             body_error := err |}
                        = raise (RequestException m)).
  { unfold raise_for_status. simpl.
    destruct (Z.ltb_spec status 500).
    - exists (PyStr.of_int status +:+ " " +:+ "Client Error" +:+ ": " +:+ rsn
              +:+ " for url: " +:+ url).
      replace (400 <=? status) with true by (symmetry; apply Z.leb_le; lia).
      reflexivity.
    - exists (PyStr.of_int status +:+ " " +:+ "Server Error" +:+ ": " +:+ rsn
              +:+ " for url: " +:+ url).
      replace (400 <=? status) with true by (symmetry; apply Z.leb_le; lia).
      replace (500 <=? status) with true by (symmetry; apply Z.leb_le; lia).
      replace (status <? 600) with true by (symmetry; apply Z.ltb_lt; lia).
      reflexivity. }
  destruct R as [m R]. exists m. split; [|split].
  - rewrite download_image_total.
    unfold download_image_try, mkdir_parents, at_fetch, after.
    unfold bind at 1. rewrite Hmk.
    unfold bind at 1, requests_get, bind at 1, get_trace.
    unfold bind at 1, emit. cbn [st_trace st_fs]. rewrite Hget.
    unfold ret at 1. unfold bind at 1. rewrite R. unfold raise.
    unfold after. simpl. now rewrite <- app_assoc.
  - exact Hf.
  - apply Hall. reflexivity.
Qed.

(** A 404 answer, from a state without the cache directory: the fetcher
    fails, no file appears and the cache directory exists afterwards. *)
Lemma error_status_keeps_cache_witness :
  exists s',
    download_image missing_world NOAA_IMAGE_URL sample_image empty_state
    = (Ok false, s')
    /\ fs_files (st_fs s') = fs_files (st_fs empty_state)
    /\ is_dir (st_fs s') (parent sample_image) = true
    /\ is_dir (st_fs empty_state) (parent sample_image) = false.
Proof.
  pose proof (error_status_keeps_cache missing_world NOAA_IMAGE_URL
                sample_image empty_state
                (snd (mkdir_parents missing_world (parent sample_image)
                        (at_fetch NOAA_IMAGE_URL empty_state)))
                404 "Not Found" [[Byte.x3c]] None) as H.
  destruct H as (m & E & Hf & Hd).
  - vm_compute. reflexivity.
  - reflexivity.
  - lia.
  - eexists. split; [exact E|]. split; [exact Hf|]. split.
    + apply Hd. vm_compute. auto 10.
    + vm_compute. reflexivity.
Defined.

(** C5, as stated, fails for a status that is neither a success nor an
    error for [raise_for_status]: on a 300 answer the fetcher returns
    success and the cached file, which held one byte, now holds the body
    of that answer. *)
Lemma redirection_status_overwrites_cache :
  http_get choices_world
    (st_trace (at_fetch NOAA_IMAGE_URL cached_state)) NOAA_IMAGE_URL
  = HttpResponse 300 "Multiple Choices" [[Byte.x3c]] None
  /\ ~ (200 <= 300 < 300)
  /\ fst (download_image choices_world NOAA_IMAGE_URL sample_image cached_state)
     = Ok true
  /\ fs_files (st_fs cached_state) !! sample_image = Some [Byte.x01]
  /\ fs_files (st_fs (snd (download_image choices_world NOAA_IMAGE_URL
                             sample_image cached_state))) !! sample_image
     = Some [Byte.x3c].
Proof.
  split; [reflexivity|]. split; [lia|].
  split; [vm_compute; reflexivity|].
  split; vm_compute; reflexivity.
Qed.


(** ** Sequencing *)

Lemma bind_ok {A B} (m : M A) (k : A -> M B) (s s' : state) (a : A) :
  m s = (Ok a, s') -> bind m k s = k a s'.
Proof. intros H. unfold bind. now rewrite H. Qed.

Lemma bind_raise {A B} (m : M A) (k : A -> M B) (s s' : state) (e : exn) :
  m s = (Raise e, s') -> bind m k s = (Raise e, s').
Proof. intros H. unfold bind. now rewrite H. Qed.

Lemma requested_app (a b : list event) :
  requested (a ++ b) = (requested a ++ requested b)%list.
Proof.
  induction a as [|e a IH]; simpl; [reflexivity|].
  destruct e; simpl; rewrite IH; reflexivity.
Qed.

Lemma slept_app (a b : list event) :
  slept (a ++ b) = (slept a ++ slept b)%list.
Proof.
  induction a as [|e a IH]; simpl; [reflexivity|].
  destruct e; simpl; rewrite IH; reflexivity.
Qed.

Lemma probed_app (a b : list event) :
  probed (a ++ b) = (probed a ++ probed b)%list.
Proof.
  induction a as [|e a IH]; simpl; [reflexivity|].
  destruct e; simpl; rewrite IH; reflexivity.
Qed.

(** ** Writing the body of the response *)

(** One write appends to the file and touches nothing else. *)
Lemma file_write_ok (w : World) (p : path) (i : nat) (c : list Byte.byte)
      (s : state) (old : list Byte.byte) :
  os_fault w (OpWrite p i) = None ->
  fs_files (st_fs s) !! p = Some old ->
  file_write w p i c s
  = (Ok tt,
     mkState (mkFS (fs_dirs (st_fs s))
                   (<[ p := (old ++ c)%list ]> (fs_files (st_fs s))))
             (st_trace s)).
Proof.
  intros Hf Hold. unfold file_write. rewrite Hf. run. now rewrite Hold.
Qed.

(** Writing all the chunks without a refusal: the file ends with the
    chunks appended, and the loop ends as the transfer does. *)
Lemma write_chunks_clean (w : World) (p : path)
      (chunks : list (list Byte.byte)) (err : option exn) :
  forall (i : nat) (s : state) (old : list Byte.byte),
    (forall j, os_fault w (OpWrite p j) = None) ->
    fs_files (st_fs s) !! p = Some old ->
    exists s',
      write_chunks w p i chunks err s
      = (match err with Some e => Raise e | None => Ok tt end, s')
      /\ st_trace s' = st_trace s
      /\ fs_dirs (st_fs s') = fs_dirs (st_fs s)
      /\ fs_files (st_fs s') !! p = Some (old ++ List.concat chunks)%list
      /\ (forall q, q <> p ->
            fs_files (st_fs s') !! q = fs_files (st_fs s) !! q).
Proof.
  induction chunks as [|c chunks IH]; intros i s old Hf Hold.
  - exists s. simpl. rewrite app_nil_r.
    split; [destruct err; reflexivity | auto].
  - cbn [write_chunks]. erewrite bind_ok by (apply file_write_ok; eauto).
    match goal with
    | |- context [write_chunks w p (S i) chunks err ?st] =>
        destruct (IH (S i) st (old ++ c)%list Hf) as (s' & E & Ht & Hd & Hp & Hq)
    end.
    { simpl. apply lookup_insert_eq. }
    exists s'. split; [exact E|]. simpl in *.
    split; [exact Ht|]. split; [exact Hd|].
    split; [rewrite Hp, <- app_assoc; reflexivity|].
    intros q Hne. rewrite (Hq q Hne). now apply lookup_insert_ne.
Qed.


(** Whatever happens, writing touches no other file, no directory and
    not the trace, and a file that exists keeps existing. *)
Lemma write_chunks_frame (w : World) (p : path)
      (chunks : list (list Byte.byte)) (err : option exn) :
  forall (i : nat) (s : state),
    exists r s',
      write_chunks w p i chunks err s = (r, s')
      /\ st_trace s' = st_trace s
      /\ fs_dirs (st_fs s') = fs_dirs (st_fs s)
      /\ (forall q, q <> p ->
            fs_files (st_fs s') !! q = fs_files (st_fs s) !! q)
      /\ (is_file (st_fs s) p = true -> is_file (st_fs s') p = true).
Proof.
  induction chunks as [|c chunks IH]; intros i s.
  - simpl. destruct err as [e|]; eexists _, s; (split; [reflexivity|]); auto.
  - cbn [write_chunks]. unfold bind at 1, file_write.
    destruct (os_fault w (OpWrite p i)) as [e|].
    { exists (Raise e), s. unfold raise. auto. }
    unfold bind at 1, get_fs, put_fs.
    match goal with
    | |- context [write_chunks w p (S i) chunks err ?st] =>
        destruct (IH (S i) st) as (r & s' & E & Ht & Hd & Hq & Hp)
    end.
    exists r, s'. split; [exact E|]. simpl in *.
    split; [exact Ht|]. split; [exact Hd|]. split.
    + intros q Hne. rewrite (Hq q Hne). now apply lookup_insert_ne.
    + intros _. apply Hp. unfold is_file. simpl. now rewrite lookup_insert_eq.
Qed.

(** ** The steps of the fetcher *)

Lemma requests_get_response (w : World) (url : string) (s : state)
      (status : Z) (rsn : string) (chunks : list (list Byte.byte))
      (err : option exn) :
  http_get w (st_trace s) url = HttpResponse status rsn chunks err ->
  requests_get w url s
  = (Ok (mkResponse status rsn url chunks err), after s [EvHttpGet url 30]).
Proof. intros H. unfold requests_get. run. now rewrite H. Qed.

Lemma requests_get_raises (w : World) (url : string) (s : state) (e : exn) :
  http_get w (st_trace s) url = HttpRaises e ->
  requests_get w url s = (Raise e, after s [EvHttpGet url 30]).
Proof. intros H. unfold requests_get. run. now rewrite H. Qed.

Lemma raise_for_status_pass (r : response) (s : state) :
  ~ (400 <= status_code r < 600) ->
  raise_for_status r s = (Ok tt, s).
Proof.
  intros H. unfold raise_for_status.
  destruct ((400 <=? status_code r) && (status_code r <? 500)) eqn:E1.
  { apply andb_true_iff in E1 as [A B].
    apply Z.leb_le in A. apply Z.ltb_lt in B. lia. }
  destruct ((500 <=? status_code r) && (status_code r <? 600)) eqn:E2.
  { apply andb_true_iff in E2 as [A B].
    apply Z.leb_le in A. apply Z.ltb_lt in B. lia. }
  reflexivity.
Qed.

Lemma open_wb_ok (w : World) (p : path) (s : state) :
  is_dir (st_fs s) p = false ->
  is_file (st_fs s) (parent p) = false ->
  is_dir (st_fs s) (parent p) = true ->
  os_fault w (OpOpenWrite p) = None ->
  open_wb w p s
  = (Ok tt,
     mkState (mkFS (fs_dirs (st_fs s)) (<[ p := [] ]> (fs_files (st_fs s))))
             (st_trace s)).
Proof.
  intros H1 H2 H3 H4. unfold open_wb. run. now rewrite H1, H2, H3, H4.
Qed.

(** Opening the destination touches no other file, no directory and not
    the trace; when it succeeds the destination is a file. *)
Lemma open_wb_frame (w : World) (p : path) (s : state) :
  exists r s',
    open_wb w p s = (r, s')
    /\ st_trace s' = st_trace s
    /\ fs_dirs (st_fs s') = fs_dirs (st_fs s)
    /\ (forall q, q <> p ->
          fs_files (st_fs s') !! q = fs_files (st_fs s) !! q)
    /\ (r = Ok tt -> is_file (st_fs s') p = true).
Proof.
  unfold open_wb. run.
  destruct (is_dir (st_fs s) p);
    [eexists _, s; repeat split; auto; discriminate|].
  destruct (is_file (st_fs s) (parent p));
    [eexists _, s; repeat split; auto; discriminate|].
  destruct (is_dir (st_fs s) (parent p)); simpl;
    [|eexists _, s; repeat split; auto; discriminate].
  destruct (os_fault w (OpOpenWrite p)) as [e|];
    [eexists _, s; repeat split; auto; discriminate|].
  eexists _, _. split; [reflexivity|]. simpl. repeat split; auto.
  - intros q Hne. now apply lookup_insert_ne.
  - intros _. unfold is_file. simpl. now rewrite lookup_insert_eq.
Qed.

Lemma ancestors_from_last (base p : path) :
  p <> [] -> In (base ++ p)%list (ancestors_from base p).
Proof.
  revert base. induction p as [|c p IH]; intros base H; [congruence|].
  destruct p as [|c' p].
  - left. reflexivity.
  - right. specialize (IH (base ++ [c])%list).
    rewrite <- app_assoc in IH. apply IH. discriminate.
Qed.

(** After [mkdir(parents=True)] on [d] has succeeded, [d] is a directory. *)
Lemma mkdir_parents_made (w : World) (d : path) (s s' : state) :
  mkdir_parents w d s = (Ok tt, s') -> is_dir (st_fs s') d = true.
Proof.
  intros H. destruct (mkdir_chain_effect w (ancestors d) s)
    as (r & fs' & E & _ & _ & Hall).
  unfold mkdir_parents in H. rewrite H in E. injection E as <- ->.
  destruct d as [|c d]; [reflexivity|].
  apply Hall; [reflexivity|].
  apply (ancestors_from_last [] (c :: d)). discriminate.
Qed.

Lemma mkdir_parents_keeps (w : World) (d : path) (s s' : state)
      (r : result unit) :
  mkdir_parents w d s = (r, s') ->
  st_trace s' = st_trace s
  /\ fs_files (st_fs s') = fs_files (st_fs s)
  /\ (forall q, is_dir (st_fs s) q = true -> is_dir (st_fs s') q = true).
Proof.
  intros H. destruct (mkdir_chain_effect w (ancestors d) s)
    as (r' & fs' & E & Hf & Hmono & _).
  unfold mkdir_parents in H. rewrite H in E. injection E as _ ->. auto.
Qed.

(** A regular file in the way of the chain makes the creation fail. *)
Lemma mkdir_chain_blocked (w : World) (d : path) (ds : list path) :
  forall s,
    In d ds -> is_file (st_fs s) d = true -> is_dir (st_fs s) d = false ->
    exists e s', mkdir_chain w ds s = (Raise e, s').
Proof.
  induction ds as [|h ds IH]; intros s Hin Hfile Hdir; [destruct Hin|].
  cbn [mkdir_chain]. unfold bind at 1, get_fs at 1.
  destruct (decide (h = d)) as [->|Hne].
  - rewrite Hdir, Hfile. unfold raise. eauto.
  - assert (Hin' : In d ds) by (destruct Hin; [congruence | assumption]).
    destruct (is_dir (st_fs s) h); [now apply IH|].
    destruct (is_file (st_fs s) h); [unfold raise; eauto|].
    destruct (os_fault w (OpMkdir h)) as [e|]; [unfold raise; eauto|].
    unfold bind at 1, put_fs at 1. apply IH; auto.
    unfold is_dir in *. simpl.
    apply orb_false_iff in Hdir as [H1 H2]. apply orb_false_iff. split; auto.
    apply bool_decide_eq_false. apply bool_decide_eq_false in H2.
    intros Hx. apply elem_of_union in Hx as [Hx|Hx]; [|contradiction].
    apply elem_of_singleton in Hx. congruence.
Qed.

(** What the [try] statement of the fetcher does to the state, whatever
    the world answers. *)
Lemma download_image_try_frame (w : World) (url : string) (p : path)
      (s : state) :
  exists r s',
    download_image_try w url p s = (r, s')
    /\ (forall q, q <> p ->
          fs_files (st_fs s') !! q = fs_files (st_fs s) !! q)
    /\ (forall d, is_dir (st_fs s) d = true -> is_dir (st_fs s') d = true)
    /\ spawned (st_trace s') = spawned (st_trace s)
    /\ (forall b, r = Ok b -> b = true /\ is_file (st_fs s') p = true).
Proof.
  unfold download_image_try.
  destruct (mkdir_parents w (parent p) s) as [[[]|e] s2] eqn:Emk;
    destruct (mkdir_parents_keeps _ _ _ _ _ Emk) as (Ht2 & Hf2 & Hd2).
  2:{ erewrite bind_raise by eassumption. eexists _, _.
      split; [reflexivity|]. rewrite Hf2, Ht2. repeat split; auto; discriminate. }
  erewrite bind_ok by eassumption.
  destruct (http_get w (st_trace s2) url) as [e|status rsn chunks err] eqn:Eget.
  { erewrite bind_raise by (apply requests_get_raises; eassumption).
    eexists _, _. split; [reflexivity|]. unfold after. simpl.
    rewrite Hf2, spawned_app, Ht2. simpl. rewrite app_nil_r.
    repeat split; auto; discriminate. }
  erewrite bind_ok by (apply requests_get_response; eassumption).
  destruct (raise_for_status (mkResponse status rsn url chunks err)
              (after s2 [EvHttpGet url 30])) as [[[]|e] s3] eqn:Est.
  2:{ erewrite bind_raise by eassumption.
      assert (s3 = after s2 [EvHttpGet url 30]) as ->.
      { unfold raise_for_status, raise, ret in Est.
        repeat match type of Est with
               | context [if ?c then _ else _] => destruct c
               end; now injection Est. }
      eexists _, _. split; [reflexivity|]. unfold after. simpl.
      rewrite Hf2, spawned_app, Ht2. simpl. rewrite app_nil_r.
      repeat split; auto; discriminate. }
  assert (s3 = after s2 [EvHttpGet url 30]) as ->.
  { unfold raise_for_status, raise, ret in Est.
    repeat match type of Est with
           | context [if ?c then _ else _] => destruct c
           end; now injection Est. }
  erewrite bind_ok by eassumption.
  destruct (open_wb_frame w p (after s2 [EvHttpGet url 30]))
    as (ro & s4 & Eo & Ht4 & Hd4 & Hq4 & Hp4).
  destruct ro as [[]|e].
  2:{ erewrite bind_raise by eassumption. eexists _, _.
      split; [reflexivity|]. split; [|split; [|split]].
      - intros q Hne. rewrite (Hq4 q Hne). simpl. now rewrite Hf2.
      - intros d Hd. apply Hd2 in Hd. unfold is_dir in *. now rewrite Hd4.
      - rewrite Ht4. unfold after. simpl. rewrite spawned_app, Ht2. simpl.
        now rewrite app_nil_r.
      - discriminate. }
  erewrite bind_ok by eassumption.
  destruct (write_chunks_frame w p chunks err 0 s4)
    as (rw & s5 & Ew & Ht5 & Hd5 & Hq5 & Hp5).
  simpl body_chunks. simpl body_error.
  destruct rw as [[]|e].
  2:{ erewrite bind_raise by eassumption. eexists _, _.
      split; [reflexivity|]. split; [|split; [|split]].
      - intros q Hne. rewrite (Hq5 q Hne), (Hq4 q Hne). simpl. now rewrite Hf2.
      - intros d Hd. apply Hd2 in Hd. unfold is_dir in *.
        now rewrite Hd5, Hd4.
      - rewrite Ht5, Ht4. unfold after. simpl. rewrite spawned_app, Ht2.
        simpl. now rewrite app_nil_r.
      - discriminate. }
  erewrite bind_ok by eassumption. run.
  eexists _, _. split; [reflexivity|]. simpl. split; [|split; [|split]].
  - intros q Hne. rewrite (Hq5 q Hne), (Hq4 q Hne). simpl. now rewrite Hf2.
  - intros d Hd. apply Hd2 in Hd. unfold is_dir in *. now rewrite Hd5, Hd4.
  - rewrite spawned_app, Ht5, Ht4. simpl. rewrite spawned_app, Ht2.
    simpl. now rewrite !app_nil_r.
  - intros b Hb. injection Hb as <-. split; [reflexivity|].
    apply Hp5, Hp4. reflexivity.
Qed.

(** ** The fetcher and the cache file *)

(** The [try] statement of the fetcher up to the writing loop. *)
Lemma download_image_try_opened (w : World) (url : string) (p : path)
      (s s2 : state) (status : Z) (rsn : string)
      (chunks : list (list Byte.byte)) (err : option exn) :
  mkdir_parents w (parent p) s = (Ok tt, s2) ->
  http_get w (st_trace s2) url = HttpResponse status rsn chunks err ->
  ~ (400 <= status < 600) ->
  is_dir (st_fs s2) p = false ->
  is_file (st_fs s2) (parent p) = false ->
  os_fault w (OpOpenWrite p) = None ->
  download_image_try w url p s
  = bind (write_chunks w p 0 chunks err)
      (fun _ =>
         bind (print ("-> Image successfully downloaded and saved to: "
                      +:+ path_str p))
              (fun _ => ret true))
      (mkState (mkFS (fs_dirs (st_fs s2)) (<[ p := [] ]> (fs_files (st_fs s2))))
               (st_trace s2 ++ [EvHttpGet url 30])%list).
Proof.
  intros Hmk Hget Hst Hdir Hpar Hopen. unfold download_image_try.
  erewrite bind_ok by eassumption.
  erewrite bind_ok by (apply requests_get_response; eassumption).
  erewrite bind_ok by (apply raise_for_status_pass; exact Hst).
  erewrite bind_ok.
  2:{ apply open_wb_ok; auto. simpl. eapply mkdir_parents_made; eassumption. }
  reflexivity.
Qed.

(** X1. A completed download: when the directories could be ensured, the
    status is not an error status, the destination can be opened and no
    write is refused, the fetcher returns success and the destination
    holds exactly the chunks of the response, in order, whatever it held
    before. *)
Theorem download_round_trip (w : World) (url : string) (p : path)
        (s s2 : state) (status : Z) (rsn : string)
        (chunks : list (list Byte.byte)) :
  mkdir_parents w (parent p) (at_fetch url s) = (Ok tt, s2) ->
  http_get w (st_trace s2) url = HttpResponse status rsn chunks None ->
  ~ (400 <= status < 600) ->
  is_dir (st_fs s2) p = false ->
  is_file (st_fs s2) (parent p) = false ->
  os_fault w (OpOpenWrite p) = None ->
  (forall j, os_fault w (OpWrite p j) = None) ->
  exists s',
    download_image w url p s = (Ok true, s')
    /\ fs_files (st_fs s') !! p = Some (List.concat chunks)
    /\ st_trace s'
       = (st_trace s
          ++ [EvPrint Stdout ("-> Attempting to download image from: " +:+ url);
              EvHttpGet url 30;
              EvPrint Stdout ("-> Image successfully downloaded and saved to: "
                              +:+ path_str p)])%list.
Proof.
  intros Hmk Hget Hst Hdir Hpar Hopen Hwrite.
  destruct (mkdir_parents_keeps _ _ _ _ _ Hmk) as (Ht & _ & _).
  rewrite download_image_total.
  rewrite (download_image_try_opened _ _ _ _ _ _ _ _ _ Hmk Hget Hst Hdir Hpar Hopen).
  match goal with
  | |- context [bind (write_chunks w p 0 chunks None) _ ?st] =>
      destruct (write_chunks_clean w p chunks None 0 st [] Hwrite)
        as (s3 & E & Ht3 & _ & Hp3 & _)
  end.
  { simpl. apply lookup_insert_eq. }
  erewrite bind_ok by exact E. run.
  eexists. split; [reflexivity|]. simpl. split; [exact Hp3|].
  rewrite Ht3. simpl. rewrite Ht. unfold at_fetch, after. simpl.
  now rewrite <- !app_assoc.
Qed.

(** A two-chunk image replaces the one-byte cache file. *)
Lemma download_round_trip_witness :
  exists s',
    download_image image_world NOAA_IMAGE_URL sample_image cached_state
    = (Ok true, s')
    /\ fs_files (st_fs s') !! sample_image
       = Some [Byte.xff; Byte.xd8; Byte.xd9].
Proof.
  destruct (download_round_trip image_world NOAA_IMAGE_URL sample_image
              cached_state
              (snd (mkdir_parents image_world (parent sample_image)
                      (at_fetch NOAA_IMAGE_URL cached_state)))
              200 "OK" [[Byte.xff; Byte.xd8]; [Byte.xd9]])
    as (s' & E & Hp & _).
  - vm_compute. reflexivity.
  - reflexivity.
  - lia.
  - vm_compute. reflexivity.
  - vm_compute. reflexivity.
  - reflexivity.
  - intros j. reflexivity.
  - exists s'. split; [exact E | exact Hp].
Defined.

(** X2. A transfer that breaks after the response was accepted: the
    fetcher returns failure and reports the exception, but the destination
    was already truncated and holds the chunks received before the
    break, not what it held before. *)
Theorem broken_transfer_leaves_partial_file (w : World) (url : string)
        (p : path) (s s2 : state) (status : Z) (rsn : string)
        (chunks : list (list Byte.byte)) (e : exn) :
  mkdir_parents w (parent p) (at_fetch url s) = (Ok tt, s2) ->
  http_get w (st_trace s2) url = HttpResponse status rsn chunks (Some e) ->
  ~ (400 <= status < 600) ->
  is_dir (st_fs s2) p = false ->
  is_file (st_fs s2) (parent p) = false ->
  os_fault w (OpOpenWrite p) = None ->
  (forall j, os_fault w (OpWrite p j) = None) ->
  exists s',
    download_image w url p s = (Ok false, s')
    /\ fs_files (st_fs s') !! p = Some (List.concat chunks)
    /\ st_trace s'
       = (st_trace s
          ++ [EvPrint Stdout ("-> Attempting to download image from: " +:+ url);
              EvHttpGet url 30;
              EvPrint Stderr (download_report e)])%list.
Proof.
  intros Hmk Hget Hst Hdir Hpar Hopen Hwrite.
  destruct (mkdir_parents_keeps _ _ _ _ _ Hmk) as (Ht & _ & _).
  rewrite download_image_total.
  rewrite (download_image_try_opened _ _ _ _ _ _ _ _ _ Hmk Hget Hst Hdir Hpar Hopen).
  match goal with
  | |- context [bind (write_chunks w p 0 chunks (Some e)) _ ?st] =>
      destruct (write_chunks_clean w p chunks (Some e) 0 st [] Hwrite)
        as (s3 & E & Ht3 & _ & Hp3 & _)
  end.
  { simpl. apply lookup_insert_eq. }
  erewrite bind_raise by exact E.
  eexists. split; [reflexivity|]. unfold after. simpl. split; [exact Hp3|].
  rewrite Ht3. simpl. rewrite Ht. unfold at_fetch, after. simpl.
  now rewrite <- !app_assoc.
Qed.

(** The transfer breaks after two bytes: the one-byte cache file is
    replaced by those two bytes. *)
Lemma broken_transfer_leaves_partial_file_witness :
  exists s',
    download_image broken_world NOAA_IMAGE_URL sample_image cached_state
    = (Ok false, s')
    /\ fs_files (st_fs s') !! sample_image = Some [Byte.xff; Byte.xd8]
    /\ fs_files (st_fs cached_state) !! sample_image = Some [Byte.x01].
Proof.
  destruct (broken_transfer_leaves_partial_file broken_world NOAA_IMAGE_URL
              sample_image cached_state
              (snd (mkdir_parents broken_world (parent sample_image)
                      (at_fetch NOAA_IMAGE_URL cached_state)))
              200 "OK" [[Byte.xff; Byte.xd8]]
              (RequestException "Connection broken: IncompleteRead"))
    as (s' & E & Hp & _).
  - vm_compute. reflexivity.
  - reflexivity.
  - lia.
  - vm_compute. reflexivity.
  - vm_compute. reflexivity.
  - reflexivity.
  - intros j. reflexivity.
  - exists s'. split; [exact E|]. split; [exact Hp|].
    vm_compute. reflexivity.
Defined.



(** X4. A request that fails: when [requests.get] raises, whatever the
    exception, the fetcher returns failure and reports it, no file is
    changed, and the parent directories of the destination exist. *)
Theorem failed_request_keeps_files (w : World) (url : string) (p : path)
        (s s2 : state) (e : exn) :
  mkdir_parents w (parent p) (at_fetch url s) = (Ok tt, s2) ->
  http_get w (st_trace s2) url = HttpRaises e ->
  download_image w url p s
  = (Ok false,
     after s2 [EvHttpGet url 30; EvPrint Stderr (download_report e)])
  /\ fs_files (st_fs s2) = fs_files (st_fs s)
  /\ is_dir (st_fs s2) (parent p) = true.
Proof.
  intros Hmk Hget.
  destruct (mkdir_parents_keeps _ _ _ _ _ Hmk) as (_ & Hf & _).
  split; [|split; [exact Hf | eapply mkdir_parents_made; eassumption]].
  rewrite download_image_total. unfold download_image_try.
  erewrite bind_ok by eassumption.
  erewrite bind_raise by (apply requests_get_raises; eassumption).
  unfold after. simpl. now rewrite <- app_assoc.
Qed.

(** Without a network the cache file keeps its byte. *)
Lemma failed_request_keeps_files_witness :
  fst (download_image quiet_world NOAA_IMAGE_URL sample_image cached_state)
  = Ok false
  /\ fs_files (st_fs (snd (download_image quiet_world NOAA_IMAGE_URL
                             sample_image cached_state))) !! sample_image
     = Some [Byte.x01].
Proof.
  destruct (failed_request_keeps_files quiet_world NOAA_IMAGE_URL sample_image
              cached_state
              (snd (mkdir_parents quiet_world (parent sample_image)
                      (at_fetch NOAA_IMAGE_URL cached_state)))
              (RequestException "connection refused"))
    as (E & Hf & _).
  - vm_compute. reflexivity.
  - reflexivity.
  - rewrite E. split; [reflexivity|]. unfold after. cbn [snd st_fs].
    rewrite Hf. reflexivity.
Defined.

(** X5. A regular file in the way: when a component of the destination's
    directory is a regular file, the fetcher returns failure without
    sending any request, and no file is changed. *)
Theorem blocked_directory_sends_no_request (w : World) (url : string)
        (p d : path) (s : state) :
  In d (ancestors (parent p)) ->
  is_file (st_fs s) d = true ->
  is_dir (st_fs s) d = false ->
  exists e s',
    download_image w url p s
    = (Ok false, after s' [EvPrint Stderr (download_report e)])
    /\ requested (st_trace s') = requested (st_trace s)
    /\ fs_files (st_fs s') = fs_files (st_fs s).
Proof.
  intros Hin Hfile Hdir.
  destruct (mkdir_chain_blocked w d (ancestors (parent p)) (at_fetch url s))
    as (e & s' & E); auto.
  destruct (mkdir_parents_keeps w (parent p) _ _ _ E) as (Ht & Hf & _).
  exists e, s'. rewrite download_image_total. unfold download_image_try.
  erewrite bind_raise by exact E.
  split; [reflexivity|]. split; [|exact Hf].
  rewrite Ht. unfold at_fetch, after. simpl.
  rewrite requested_app. simpl. now rewrite app_nil_r.
Qed.

(** /home is a regular file: the download fails before any request. *)
Lemma blocked_directory_sends_no_request_witness :
  fst (download_image image_world NOAA_IMAGE_URL sample_image blocked_state)
  = Ok false
  /\ requested (st_trace (snd (download_image image_world NOAA_IMAGE_URL
                                 sample_image blocked_state))) = [].
Proof.
  destruct (blocked_directory_sends_no_request image_world NOAA_IMAGE_URL
              sample_image ["home"] blocked_state)
    as (e & s' & E & Hr & _).
  - vm_compute. auto.
  - vm_compute. reflexivity.
  - vm_compute. reflexivity.
  - rewrite E. split; [reflexivity|].
    unfold after. cbn [snd st_trace]. rewrite requested_app, Hr. reflexivity.
Defined.

(** X6. Whatever the world answers, the fetcher changes no file other
    than its destination, removes no directory and starts no process. *)
Theorem download_changes_only_destination (w : World) (url : string)
        (p : path) (s : state) :
  let s' := snd (download_image w url p s) in
  (forall q, q <> p -> fs_files (st_fs s') !! q = fs_files (st_fs s) !! q)
  /\ (forall d, is_dir (st_fs s) d = true -> is_dir (st_fs s') d = true)
  /\ spawned (st_trace s') = spawned (st_trace s).
Proof.
  cbv zeta. rewrite download_image_total.
  destruct (download_image_try_frame w url p (at_fetch url s))
    as (r & s' & E & Hq & Hd & Hsp & _).
  rewrite E.
  assert (Hs0 : spawned (st_trace (at_fetch url s)) = spawned (st_trace s)).
  { unfold at_fetch, after. simpl. rewrite spawned_app. simpl.
    now rewrite app_nil_r. }
  destruct r as [b|e]; simpl.
  - rewrite Hsp, Hs0. auto.
  - split; [exact Hq|]. split; [exact Hd|].
    rewrite spawned_app, Hsp, Hs0. simpl. now rewrite app_nil_r.
Qed.

(** The download of the image leaves a file beside the cache file as it
    was. *)
Lemma download_changes_only_destination_witness :
  fs_files (st_fs (snd (download_image image_world NOAA_IMAGE_URL sample_image
                          blocked_state))) !! ["home"]
  = Some [Byte.x00]
  /\ fs_files (st_fs (snd (download_image image_world NOAA_IMAGE_URL
                             sample_image cached_state)))
       !! ["home"; "user"; "notes.txt"]
     = None.
Proof.
  split.
  - rewrite (proj1 (download_changes_only_destination image_world
                      NOAA_IMAGE_URL sample_image blocked_state));
      [reflexivity | discriminate].
  - rewrite (proj1 (download_changes_only_destination image_world
                      NOAA_IMAGE_URL sample_image cached_state));
      [reflexivity | discriminate].
Defined.

(** X7. When the fetcher returns success its destination is a file. *)
Theorem successful_download_leaves_file (w : World) (url : string) (p : path)
        (s s' : state) :
  download_image w url p s = (Ok true, s') ->
  is_file (st_fs s') p = true.
Proof.
  rewrite download_image_total.
  destruct (download_image_try_frame w url p (at_fetch url s))
    as (r & s1 & E & _ & _ & _ & Hok).
  rewrite E. destruct r as [b|e]; intros H.
  - injection H as -> <-. now apply (Hok true).
  - discriminate.
Qed.

(** After the sample download the cache file exists. *)
Lemma successful_download_leaves_file_witness :
  is_file (st_fs (snd (download_image image_world NOAA_IMAGE_URL sample_image
                         empty_state))) sample_image = true.
Proof.
  apply (successful_download_leaves_file image_world NOAA_IMAGE_URL
           sample_image empty_state).
  vm_compute. reflexivity.
Defined.

(** ** Computations that only add events *)

Lemma extends_refl (s : state) : extends s s.
Proof. exists []. now rewrite app_nil_r. Qed.

Lemma extends_trans (s1 s2 s3 : state) :
  extends s1 s2 -> extends s2 s3 -> extends s1 s3.
Proof.
  intros [a Ha] [b Hb]. exists (a ++ b)%list.
  now rewrite Hb, Ha, app_assoc.
Qed.

Lemma grows_ret {A} (a : A) : grows (ret a).
Proof. intros s. apply extends_refl. Qed.

Lemma grows_raise {A} (e : exn) : grows (@raise A e).
Proof. intros s. apply extends_refl. Qed.

Lemma grows_emit (e : event) : grows (emit e).
Proof. intros s. exists [e]. reflexivity. Qed.

Lemma grows_get_fs : grows get_fs.
Proof. intros s. apply extends_refl. Qed.

Lemma grows_get_trace : grows get_trace.
Proof. intros s. apply extends_refl. Qed.

Lemma grows_put_fs (fs : FS) : grows (put_fs fs).
Proof. intros s. exists []. simpl. now rewrite app_nil_r. Qed.

Lemma grows_bind {A B} (m : M A) (k : A -> M B) :
  grows m -> (forall a, grows (k a)) -> grows (bind m k).
Proof.
  intros Hm Hk s. unfold bind. specialize (Hm s).
  destruct (m s) as [[a|e] s1]; simpl in *; [|exact Hm].
  eapply extends_trans; [exact Hm | apply Hk].
Qed.

Lemma grows_try {A} (body : M A) (handler : exn -> M A) :
  grows body -> (forall e, grows (handler e)) -> grows (try_except body handler).
Proof.
  intros Hb Hh s. unfold try_except. specialize (Hb s).
  destruct (body s) as [[a|e] s1]; simpl in *; [exact Hb|].
  eapply extends_trans; [exact Hb | apply Hh].
Qed.

Lemma grows_for_each {A} (xs : list A) (body : A -> M unit) :
  (forall x, grows (body x)) -> grows (for_each xs body).
Proof.
  intros Hb. induction xs as [|x xs IH]; simpl.
  - apply grows_ret.
  - apply grows_bind; auto.
Qed.

(** ** Computations that leave the file system alone *)

Lemma keeps_fs_ret {A} (a : A) : keeps_fs (ret a).
Proof. intros s. reflexivity. Qed.

Lemma keeps_fs_raise {A} (e : exn) : keeps_fs (@raise A e).
Proof. intros s. reflexivity. Qed.

Lemma keeps_fs_emit (e : event) : keeps_fs (emit e).
Proof. intros s. reflexivity. Qed.

Lemma keeps_fs_get_fs : keeps_fs get_fs.
Proof. intros s. reflexivity. Qed.

Lemma keeps_fs_get_trace : keeps_fs get_trace.
Proof. intros s. reflexivity. Qed.

Lemma keeps_fs_bind {A B} (m : M A) (k : A -> M B) :
  keeps_fs m -> (forall a, keeps_fs (k a)) -> keeps_fs (bind m k).
Proof.
  intros Hm Hk s. unfold bind. specialize (Hm s).
  destruct (m s) as [[a|e] s1]; simpl in *; [|exact Hm].
  now rewrite Hk.
Qed.

Lemma keeps_fs_try {A} (body : M A) (handler : exn -> M A) :
  keeps_fs body -> (forall e, keeps_fs (handler e)) ->
  keeps_fs (try_except body handler).
Proof.
  intros Hb Hh s. unfold try_except. specialize (Hb s).
  destruct (body s) as [[a|e] s1]; simpl in *; [exact Hb|].
  now rewrite Hh.
Qed.

Lemma keeps_fs_for_each {A} (xs : list A) (body : A -> M unit) :
  (forall x, keeps_fs (body x)) -> keeps_fs (for_each xs body).
Proof.
  intros Hb. induction xs as [|x xs IH]; simpl.
  - apply keeps_fs_ret.
  - apply keeps_fs_bind; auto.
Qed.

(** ** Computations that never raise *)

Lemma returns_ret {A} (a : A) : returns (ret a).
Proof. intros s. now exists a. Qed.

Lemma returns_emit (e : event) : returns (emit e).
Proof. intros s. now exists tt. Qed.

Lemma returns_get_fs : returns get_fs.
Proof. intros s. now exists (st_fs s). Qed.

Lemma returns_bind {A B} (m : M A) (k : A -> M B) :
  returns m -> (forall a, returns (k a)) -> returns (bind m k).
Proof.
  intros Hm Hk s. unfold bind. destruct (Hm s) as [a Ha].
  destruct (m s) as [[a'|e] s1]; simpl in *; [apply Hk | discriminate].
Qed.

Lemma returns_try {A} (body : M A) (handler : exn -> M A) :
  (forall e, returns (handler e)) -> returns (try_except body handler).
Proof.
  intros Hh s. unfold try_except.
  destruct (body s) as [[a|e] s1]; [now exists a | apply Hh].
Qed.

Lemma returns_for_each {A} (xs : list A) (body : A -> M unit) :
  (forall x, returns (body x)) -> returns (for_each xs body).
Proof.
  intros Hb. induction xs as [|x xs IH]; simpl.
  - apply returns_ret.
  - apply returns_bind; auto.
Qed.

(** ** The three properties for the functions of the script *)

Lemma run_command_returns (w : World) (argv : list string) :
  returns (run_command w argv).
Proof. intros s. rewrite run_command_total. eauto. Qed.

Lemma run_command_keeps_fs (w : World) (argv : list string) :
  keeps_fs (run_command w argv).
Proof. intros s. rewrite run_command_total. reflexivity. Qed.

Lemma run_command_grows (w : World) (argv : list string) :
  grows (run_command w argv).
Proof. intros s. rewrite run_command_total. eexists. reflexivity. Qed.

Lemma detection_returns (w : World) : returns (get_desktop_environment w).
Proof.
  intros s. destruct (detection_effect w s) as (de & evs & E & _).
  rewrite E. eauto.
Qed.

Lemma detection_keeps_fs (w : World) : keeps_fs (get_desktop_environment w).
Proof.
  intros s. destruct (detection_effect w s) as (de & evs & E & _).
  rewrite E. reflexivity.
Qed.

Lemma detection_grows (w : World) : grows (get_desktop_environment w).
Proof.
  intros s. destruct (detection_effect w s) as (de & evs & E & _).
  rewrite E. eexists. reflexivity.
Qed.

Lemma subprocess_run_keeps_fs (w : World) (argv : list string) :
  keeps_fs (subprocess_run w argv).
Proof.
  intros s. unfold subprocess_run. destruct argv; [reflexivity|]. run.
  destruct (popen w (st_trace s) _) as [rc out err|e]; [|reflexivity].
  destruct (rc =? 0); reflexivity.
Qed.

Lemma subprocess_run_grows (w : World) (argv : list string) :
  grows (subprocess_run w argv).
Proof.
  intros s. unfold subprocess_run. destruct argv; [apply extends_refl|]. run.
  destruct (popen w (st_trace s) _) as [rc out err|e];
    [destruct (rc =? 0)|]; eexists; reflexivity.
Qed.

Ltac quiet_step :=
  match goal with
  | |- grows (bind _ _) => apply grows_bind; [|intros ?]
  | |- keeps_fs (bind _ _) => apply keeps_fs_bind; [|intros ?]
  | |- returns (bind _ _) => apply returns_bind; [|intros ?]
  | |- grows (try_except _ _) => apply grows_try; [|intros ?]
  | |- keeps_fs (try_except _ _) => apply keeps_fs_try; [|intros ?]
  | |- returns (try_except _ _) => apply returns_try; intros ?
  | |- grows (for_each _ _) => apply grows_for_each; intros ?
  | |- keeps_fs (for_each _ _) => apply keeps_fs_for_each; intros ?
  | |- returns (for_each _ _) => apply returns_for_each; intros ?
  | |- _ (if ?c then _ else _) => destruct c
  | |- _ (match ?x with _ => _ end) => destruct x
  | |- grows (print _) => apply grows_emit
  | |- grows (eprint _) => apply grows_emit
  | |- keeps_fs (print _) => apply keeps_fs_emit
  | |- keeps_fs (eprint _) => apply keeps_fs_emit
  | |- returns (print _) => apply returns_emit
  | |- returns (eprint _) => apply returns_emit
  | |- _ => first
      [ apply grows_ret | apply grows_raise | apply grows_emit
      | apply grows_get_fs | apply grows_get_trace | apply grows_put_fs
      | apply keeps_fs_ret | apply keeps_fs_raise | apply keeps_fs_emit
      | apply keeps_fs_get_fs | apply keeps_fs_get_trace
      | apply returns_ret | apply returns_emit | apply returns_get_fs
      | apply run_command_returns | apply run_command_keeps_fs
      | apply run_command_grows
      | apply detection_returns | apply detection_keeps_fs
      | apply detection_grows
      | apply subprocess_run_keeps_fs | apply subprocess_run_grows ]
  end.

Lemma set_linux_background_returns (w : World) (p : path) :
  returns (set_linux_background w p).
Proof. unfold set_linux_background, execute_command. repeat quiet_step. Qed.

Lemma set_linux_background_keeps_fs (w : World) (p : path) :
  keeps_fs (set_linux_background w p).
Proof. unfold set_linux_background, execute_command. repeat quiet_step. Qed.

Lemma set_linux_background_grows (w : World) (p : path) :
  grows (set_linux_background w p).
Proof. unfold set_linux_background, execute_command. repeat quiet_step. Qed.

(** ** More on the runner, the detection and the setter *)

(** X8. The runner leaves the file system alone and starts the command
    it is given and no other; given an empty command it starts nothing
    and returns failure. *)
Theorem runner_footprint (w : World) (argv : list string) (s : state) :
  let r := run_command w argv s in
  st_fs (snd r) = st_fs s
  /\ spawned (st_trace (snd r))
     = (spawned (st_trace s)
        ++ match argv with [] => [] | _ :: _ => [argv] end)%list
  /\ requested (st_trace (snd r)) = requested (st_trace s)
  /\ (argv = [] -> fst r = Ok false).
Proof.
  cbv zeta. rewrite run_command_total. unfold after. cbn [fst snd st_fs st_trace].
  split; [reflexivity|]. split; [|split].
  - rewrite spawned_app. f_equal. destruct argv as [|a rest].
    + unfold run_events. simpl. reflexivity.
    + apply run_events_spawned.
  - rewrite requested_app. unfold run_events.
    assert (R : forall k, requested (run_report argv k) = [])
      by (intros k; now destruct k).
    destruct argv; simpl; rewrite ?R, ?app_nil_r; reflexivity.
  - intros ->. reflexivity.
Qed.

(** The runner on the empty command and on a command that fails. *)
Lemma runner_footprint_witness :
  fst (run_command quiet_world [] empty_state) = Ok false
  /\ spawned (st_trace (snd (run_command quiet_world [] empty_state))) = [].
Proof.
  destruct (runner_footprint quiet_world [] empty_state) as (_ & Hs & _ & Hf).
  split; [apply Hf; reflexivity | exact Hs].
Defined.

(** X9. The detection always returns one of "CINNAMON", "MATE", "XFCE"
    and None; it reads the desktop variable first, probes a prefix of
    cinnamon, mate-session, xfce4-session, starts no process and leaves
    the file system alone. *)
Theorem detection_footprint (w : World) (s : state) :
  exists de evs,
    get_desktop_environment w s = (Ok de, after s evs)
    /\ In de [Some "CINNAMON"; Some "MATE"; Some "XFCE"; None]
    /\ hd_error evs = Some (EvGetenv "XDG_CURRENT_DESKTOP")
    /\ In (probed evs) [[]; ["cinnamon"]; ["cinnamon"; "mate-session"];
                        ["cinnamon"; "mate-session"; "xfce4-session"]]
    /\ spawned evs = [].
Proof.
  assert (V : probed (variable_events w) = [] /\ spawned (variable_events w) = [])
    by (unfold variable_events; now destruct (PyStr.truthy (desktop_of w))).
  destruct V as [Vp Vs].
  destruct (names_desktop (desktop_of w)) eqn:N.
  - rewrite (detection_by_variable _ _ N). eexists _, _.
    split; [reflexivity|]. rewrite Vp, Vs. repeat split; simpl; auto.
    destruct (PyStr.contains "CINNAMON" (desktop_of w)); simpl; auto.
    destruct (PyStr.contains "MATE" (desktop_of w)); simpl; auto.
  - rewrite (detection_by_probing _ _ N). cbv zeta.
    destruct (on_path w "cinnamon"); [|destruct (on_path w "mate-session");
      [|destruct (on_path w "xfce4-session")]];
      unfold after; simpl; rewrite <- app_assoc;
      (eexists _, _; split; [reflexivity|]);
      rewrite probed_app, spawned_app, Vp, Vs; simpl; auto 10.
Qed.


(** X11. No desktop detected: when the variable names none of the three
    desktops and none of the three executables is on the search path, the
    setter returns failure, starts no process, and ends with the two lines
    that name the undetected desktop as None and ask for a manual
    change. *)
Theorem undetected_desktop_fails (w : World) (p : path) (s : state) :
  is_file (st_fs s) p = true ->
  names_desktop (desktop_of w) = false ->
  on_path w "cinnamon" = false ->
  on_path w "mate-session" = false ->
  on_path w "xfce4-session" = false ->
  set_linux_background w p s
  = (Ok false,
     after s
       (EvPrint Stdout ("-> Attempting to set background to: " +:+ path_str p)
        :: variable_events w
        ++ [EvWhich "cinnamon"; EvWhich "mate-session"; EvWhich "xfce4-session";
            EvPrint Stderr "!! Could not reliably detect desktop environment.";
            EvPrint Stderr "!! Error: Unsupported or undetected desktop environment: None";
            EvPrint Stderr "   Please manually set the background using your desktop's settings tool."])).
Proof.
  intros Hfile N HC HM HX.
  assert (Hde : at_dispatch w p s
                = (Ok None,
                   after (after (after s [EvPrint Stdout
                                   ("-> Attempting to set background to: "
                                    +:+ path_str p)])
                                (variable_events w))
                         [EvWhich "cinnamon"; EvWhich "mate-session";
                          EvWhich "xfce4-session";
                          EvPrint Stderr "!! Could not reliably detect desktop environment."])).
  { unfold at_dispatch. rewrite (detection_by_probing _ _ N). cbv zeta.
    now rewrite HC, HM, HX. }
  dispatch Hfile Hde. f_equal. f_equal.
  rewrite <- !app_assoc. reflexivity.
Qed.

(** A GNOME session without any of the three executables. *)
Lemma undetected_desktop_fails_witness :
  fst (set_linux_background (with_desktop quiet_world "GNOME") sample_image
         cached_state) = Ok false
  /\ spawned (st_trace (snd (set_linux_background
                               (with_desktop quiet_world "GNOME")
                               sample_image cached_state))) = [].
Proof.
  rewrite (undetected_desktop_fails (with_desktop quiet_world "GNOME")
             sample_image cached_state);
    [| vm_compute; reflexivity | vm_compute; reflexivity
     | reflexivity | reflexivity | reflexivity].
  split; vm_compute; reflexivity.
Defined.

(** X12. On XFCE, when the discovery does not exit with status zero
    (xfconf-query is missing, exits with another status, or fails in any
    other way), the setter returns failure and the discovery is the only
    process it started; when xfconf-query is missing the line printed is
    the one that asks whether XFCE is installed. *)
Theorem xfce_discovery_failure (w : World) (p : path) (s s1 : state) :
  is_file (st_fs s) p = true ->
  at_dispatch w p s = (Ok (Some "XFCE"), s1) ->
  (forall out err,
     popen w (st_trace s1) ["xfconf-query"; "-c"; "xfce4-desktop"; "-l"]
     <> Exited 0 out err) ->
  fst (set_linux_background w p s) = Ok false
  /\ spawned (st_trace (snd (set_linux_background w p s)))
     = (spawned (st_trace s)
        ++ [["xfconf-query"; "-c"; "xfce4-desktop"; "-l"]])%list
  /\ (forall m,
        popen w (st_trace s1) ["xfconf-query"; "-c"; "xfce4-desktop"; "-l"]
        = SpawnRaises (FileNotFoundError m) ->
        set_linux_background w p s
        = (Ok false,
           after s1 [EvSpawn ["xfconf-query"; "-c"; "xfce4-desktop"; "-l"];
                     EvPrint Stderr "!! Error: 'xfconf-query' command not found. Is XFCE installed correctly?"])).
Proof.
  intros Hfile Hde Hfail.
  destruct (at_dispatch_spawned _ _ _ _ _ Hde) as [_ Hsp].
  assert (E : exists line,
             set_linux_background w p s
             = (Ok false,
                after s1 [EvSpawn ["xfconf-query"; "-c"; "xfce4-desktop"; "-l"];
                          EvPrint Stderr line])
             /\ (forall m,
                   popen w (st_trace s1)
                     ["xfconf-query"; "-c"; "xfce4-desktop"; "-l"]
                   = SpawnRaises (FileNotFoundError m) ->
                   line = "!! Error: 'xfconf-query' command not found. Is XFCE installed correctly?")).
  { dispatch Hfile Hde. unfold subprocess_run, xfce_list_command. run.
    destruct (popen w (st_trace s1)
                ["xfconf-query"; "-c"; "xfce4-desktop"; "-l"])
      as [rc out err|e] eqn:P.
    - destruct (rc =? 0) eqn:Z0.
      + apply Z.eqb_eq in Z0. subst rc. exfalso. eapply Hfail. reflexivity.
      + simpl. eexists. rewrite <- app_assoc. split; [reflexivity|].
        intros m Hm. discriminate.
    - destruct e; simpl; eexists; rewrite <- app_assoc;
        (split; [reflexivity|]); intros m' Hm; try discriminate; reflexivity. }
  destruct E as (line & E & Hline). rewrite E. simpl.
  split; [reflexivity|]. split.
  - rewrite spawned_app, Hsp. reflexivity.
  - intros m Hm. now rewrite (Hline m Hm).
Qed.

(** An XFCE session without xfconf-query. *)
Lemma xfce_discovery_failure_witness :
  fst (set_linux_background xfce_bare_world sample_image cached_state)
  = Ok false
  /\ spawned (st_trace (snd (set_linux_background xfce_bare_world sample_image
                               cached_state)))
     = [["xfconf-query"; "-c"; "xfce4-desktop"; "-l"]].
Proof.
  destruct (xfce_discovery_failure xfce_bare_world sample_image cached_state
              (snd (at_dispatch xfce_bare_world sample_image cached_state)))
    as (Hr & Hs & _).
  - vm_compute. reflexivity.
  - vm_compute. reflexivity.
  - intros out err. vm_compute. discriminate.
  - split; [exact Hr | exact Hs].
Defined.

(** X13. On CINNAMON and MATE the setter returns success exactly when
    the gsettings command it runs exits with status zero. *)
Theorem gsettings_result (w : World) (p : path) (s s1 : state) (de : string) :
  is_file (st_fs s) p = true ->
  at_dispatch w p s = (Ok (Some de), s1) ->
  de = "CINNAMON" \/ de = "MATE" ->
  let command := if String.eqb de "CINNAMON"
                 then cinnamon_command (path_str (path_resolve w p))
                 else mate_command (path_str (path_resolve w p)) in
  fst (set_linux_background w p s) = Ok true
  <-> exists out err,
        popen w (st_trace s1
                 ++ [EvPrint Stdout ("   -> Executing: "
                                     +:+ PyStr.join " " command)])%list
              command
        = Exited 0 out err.
Proof.
  intros Hfile Hde Hname command.
  assert (E : set_linux_background w p s = run_command w command s1).
  { subst command. destruct Hname as [-> | ->]; dispatch Hfile Hde;
      reflexivity. }
  rewrite E, run_command_total. cbn [fst].
  assert (Hc : exists a rest, command = a :: rest).
  { subst command. destruct Hname as [-> | ->]; simpl; eauto. }
  destruct Hc as (a & rest & Hc). rewrite Hc. unfold run_kind_of.
  destruct (popen w _ (a :: rest)) as [rc out err|e].
  - destruct (rc =? 0) eqn:Z0; simpl.
    + apply Z.eqb_eq in Z0. subst rc. split; eauto.
    + split; [discriminate|]. intros (o & e' & H). injection H as -> _ _.
      discriminate.
  - split; [destruct e; discriminate|]. intros (o & e' & H). discriminate.
Qed.

(** gsettings exits with status 1 on a MATE session: the setter fails. *)
Lemma gsettings_result_witness :
  fst (set_linux_background mate_failing_world sample_image cached_state)
  <> Ok true.
Proof.
  intros H.
  apply (gsettings_result mate_failing_world sample_image cached_state
           (snd (at_dispatch mate_failing_world sample_image cached_state))
           "MATE") in H.
  - destruct H as (out & err & H). vm_compute in H. discriminate.
  - vm_compute. reflexivity.
  - vm_compute. reflexivity.
  - right. reflexivity.
Defined.

(** ** The whole script *)

Lemma mkdir_parents_grows (w : World) (d : path) : grows (mkdir_parents w d).
Proof.
  intros s. destruct (mkdir_parents w d s) as [r s'] eqn:E.
  destruct (mkdir_parents_keeps _ _ _ _ _ E) as (Ht & _ & _).
  exists []. simpl. now rewrite Ht, app_nil_r.
Qed.

Lemma write_chunks_grows (w : World) (p : path) (i : nat)
      (chunks : list (list Byte.byte)) (err : option exn) :
  grows (write_chunks w p i chunks err).
Proof.
  intros s. destruct (write_chunks_frame w p chunks err i s)
    as (r & s' & E & Ht & _).
  rewrite E. exists []. simpl. now rewrite Ht, app_nil_r.
Qed.

Lemma open_wb_grows (w : World) (p : path) : grows (open_wb w p).
Proof.
  intros s. destruct (open_wb_frame w p s) as (r & s' & E & Ht & _).
  rewrite E. exists []. simpl. now rewrite Ht, app_nil_r.
Qed.

Lemma download_image_grows (w : World) (url : string) (p : path) :
  grows (download_image w url p).
Proof.
  unfold download_image, download_image_try, requests_get, raise_for_status.
  cbv zeta.
  repeat first [ apply mkdir_parents_grows | apply write_chunks_grows
               | apply open_wb_grows | quiet_step ].
Qed.

Lemma download_image_returns (w : World) (url : string) (p : path) :
  returns (download_image w url p).
Proof.
  intros s. rewrite download_image_total.
  destruct (download_image_try w url p (at_fetch url s)) as [[b|e] s'];
    simpl; eauto.
Qed.

(** With the image file in place the setter gets as far as the dispatch
    on the detected desktop. *)
Lemma setter_reaches_dispatch (w : World) (p : path) (s : state) :
  is_file (st_fs s) p = true ->
  exists de sd,
    at_dispatch w p s = (Ok de, sd)
    /\ st_fs sd = st_fs s
    /\ extends sd (snd (set_linux_background w p s)).
Proof.
  intros Hfile.
  destruct (detection_effect w
              (after s [EvPrint Stdout ("-> Attempting to set background to: "
                                        +:+ path_str p)]))
    as (de & evs & E & _).
  exists de, (after (after s [EvPrint Stdout
                                ("-> Attempting to set background to: "
                                 +:+ path_str p)]) evs).
  split; [exact E|]. split; [reflexivity|].
  unfold set_linux_background.
  erewrite bind_ok by reflexivity. cbv zeta.
  erewrite bind_ok by reflexivity.
  cbn [st_fs]. rewrite Hfile. cbn [negb].
  erewrite bind_ok by exact E.
  match goal with
  | |- extends ?sd (snd (?m ?sd)) =>
      assert (G : grows m);
      [unfold execute_command; repeat quiet_step | apply G]
  end.
Qed.

(** X14. The script never raises, and what it prints starts with the
    opening banner and ends with the closing banner, whatever happens in
    between. *)
Theorem main_always_finishes (w : World) (s : state) :
  exists s' between,
    main w s = (Ok tt, s')
    /\ st_trace s'
       = (st_trace s
          ++ EvPrint Stdout "--- NOAA GOES-19 Background Setter (Linux) ---"
             :: between
          ++ [EvPrint Stdout "--- Script finished ---"])%list.
Proof.
  unfold main. erewrite bind_ok by reflexivity.
  set (s0 := mkState (st_fs s)
               (st_trace s ++ [EvPrint Stdout
                  "--- NOAA GOES-19 Background Setter (Linux) ---"])%list).
  destruct (download_image_returns w NOAA_IMAGE_URL (IMAGE_PATH w) s0) as [b Hb].
  destruct (download_image_grows w NOAA_IMAGE_URL (IMAGE_PATH w) s0) as [e1 H1].
  destruct (download_image w NOAA_IMAGE_URL (IMAGE_PATH w) s0) as [r s1] eqn:E.
  simpl in Hb, H1. subst r. erewrite bind_ok by exact E.
  destruct b.
  - destruct (set_linux_background_returns w (IMAGE_PATH w)
                (after s1 [EvSleep 1])) as [b2 Hb2].
    destruct (set_linux_background_grows w (IMAGE_PATH w)
                (after s1 [EvSleep 1])) as [e2 H2].
    destruct (set_linux_background w (IMAGE_PATH w) (after s1 [EvSleep 1]))
      as [r2 s3] eqn:E2.
    simpl in Hb2, H2. subst r2. unfold after in E2.
    cbv beta iota delta [bind emit]. rewrite E2.
    destruct b2; cbv beta iota delta [negb print emit ret].
    + exists (mkState (st_fs s3)
                (st_trace s3 ++ [EvPrint Stdout "--- Script finished ---"])%list),
        (e1 ++ EvSleep 1 :: e2)%list.
      split; [reflexivity|]. cbn [st_trace]. rewrite H2, H1. subst s0.
      cbn [st_trace].
      repeat first [rewrite <- app_assoc | progress simpl]; reflexivity.
    + exists (mkState (st_fs s3)
                ((st_trace s3
                  ++ [EvPrint Stdout "!! Background could not be set automatically."])
                 ++ [EvPrint Stdout "--- Script finished ---"])%list),
        (e1 ++ EvSleep 1 :: e2
         ++ [EvPrint Stdout "!! Background could not be set automatically."])%list.
      split; [reflexivity|]. cbn [st_trace]. rewrite H2, H1. subst s0.
      cbn [st_trace].
      repeat first [rewrite <- app_assoc | progress simpl]; reflexivity.
  - cbv beta iota delta [bind print emit].
    exists (mkState (st_fs s1)
              ((st_trace s1
                ++ [EvPrint Stdout "!! Background not updated due to download failure."])
               ++ [EvPrint Stdout "--- Script finished ---"])%list),
      (e1 ++ [EvPrint Stdout "!! Background not updated due to download failure."])%list.
    split; [reflexivity|]. cbn [st_trace]. rewrite H1. subst s0.
    cbn [st_trace].
    repeat first [rewrite <- app_assoc | progress simpl]; reflexivity.
Qed.

(** The fetcher starts no process. *)
Lemma download_image_spawned (w : World) (url : string) (p : path) (s : state) :
  spawned (st_trace (snd (download_image w url p s))) = spawned (st_trace s).
Proof.
  rewrite download_image_total.
  destruct (download_image_try_frame w url p (at_fetch url s))
    as (r & s' & E & _ & _ & Hsp & _).
  rewrite E.
  assert (Hs0 : spawned (st_trace (at_fetch url s)) = spawned (st_trace s)).
  { unfold at_fetch, after. simpl. rewrite spawned_app. simpl.
    now rewrite app_nil_r. }
  destruct r as [b|e]; simpl.
  - now rewrite Hsp, Hs0.
  - rewrite spawned_app, Hsp, Hs0. simpl. now rewrite app_nil_r.
Qed.

(** X15. After a failed download the script does not call the setter:
    it prints that the background was not updated and its closing banner,
    and it has started no process. *)
Theorem main_after_failed_download (w : World) (s s1 : state) :
  download_image w NOAA_IMAGE_URL (IMAGE_PATH w) (at_download s)
  = (Ok false, s1) ->
  main w s
  = (Ok tt,
     after s1 [EvPrint Stdout "!! Background not updated due to download failure.";
               EvPrint Stdout "--- Script finished ---"])
  /\ spawned (st_trace (snd (main w s))) = spawned (st_trace s).
Proof.
  intros E.
  assert (M : main w s
              = (Ok tt,
                 after s1 [EvPrint Stdout "!! Background not updated due to download failure.";
                           EvPrint Stdout "--- Script finished ---"])).
  { unfold main. erewrite bind_ok by reflexivity.
    erewrite bind_ok by exact E.
    cbv beta iota delta [bind print emit after]. cbn [st_trace st_fs].
    now rewrite <- app_assoc. }
  split; [exact M|]. rewrite M. unfold after. cbn [snd st_trace].
  rewrite spawned_app. simpl. rewrite app_nil_r.
  pose proof (download_image_spawned w NOAA_IMAGE_URL (IMAGE_PATH w)
                (at_download s)) as H.
  rewrite E in H. cbn [snd] in H. rewrite H.
  unfold at_download, after. cbn [st_trace]. rewrite spawned_app. simpl.
  now rewrite app_nil_r.
Qed.

(** Without a network nothing is started. *)
Lemma main_after_failed_download_witness :
  fst (main quiet_world empty_state) = Ok tt
  /\ spawned (st_trace (snd (main quiet_world empty_state))) = [].
Proof.
  destruct (main_after_failed_download quiet_world empty_state
              (snd (download_image quiet_world NOAA_IMAGE_URL
                      (IMAGE_PATH quiet_world) (at_download empty_state))))
    as [M Hs].
  - vm_compute. reflexivity.
  - rewrite M. split; [reflexivity|]. rewrite M in Hs. exact Hs.
Defined.

(** X16. After a successful download the script pauses for one second
    and calls the setter, which finds the image file, so that the
    detection of the desktop takes place; the script then returns, the
    file system being as the fetcher left it. *)
Theorem main_after_successful_download (w : World) (s s1 : state) :
  download_image w NOAA_IMAGE_URL (IMAGE_PATH w) (at_download s)
  = (Ok true, s1) ->
  exists de sd s',
    at_dispatch w (IMAGE_PATH w) (after s1 [EvSleep 1]) = (Ok de, sd)
    /\ main w s = (Ok tt, s')
    /\ extends sd s'
    /\ st_fs s' = st_fs s1.
Proof.
  intros E.
  assert (Hfile : is_file (st_fs (after s1 [EvSleep 1])) (IMAGE_PATH w) = true).
  { pose proof E as E'. rewrite download_image_total in E'.
    destruct (download_image_try_frame w NOAA_IMAGE_URL (IMAGE_PATH w)
                (at_fetch NOAA_IMAGE_URL (at_download s)))
      as (r & s2 & Et & _ & _ & _ & Hok).
    rewrite Et in E'. destruct r as [b|e]; [|discriminate].
    injection E' as -> <-. now apply (Hok true). }
  destruct (setter_reaches_dispatch w (IMAGE_PATH w) (after s1 [EvSleep 1]) Hfile)
    as (de & sd & Hd & _ & Hext).
  destruct (set_linux_background_returns w (IMAGE_PATH w)
              (after s1 [EvSleep 1])) as [b2 Hb2].
  pose proof (set_linux_background_keeps_fs w (IMAGE_PATH w)
                (after s1 [EvSleep 1])) as Hfs.
  destruct (set_linux_background w (IMAGE_PATH w) (after s1 [EvSleep 1]))
    as [r2 s3] eqn:E2.
  simpl in Hb2, Hext, Hfs. subst r2.
  exists de, sd.
  unfold main. erewrite bind_ok by reflexivity. fold (at_download s).
  erewrite bind_ok by exact E. unfold after in E2.
  cbv beta iota delta [bind emit]. rewrite E2.
  destruct b2; cbv beta iota delta [negb print emit ret];
    eexists; (split; [exact Hd|]); (split; [reflexivity|]); cbn [st_fs];
    (split; [|exact Hfs]);
    (eapply extends_trans; [exact Hext|]); eexists; cbn [st_trace];
    rewrite <- ?app_assoc; reflexivity.
Qed.

(** On the MATE machine the script downloads the image, pauses, detects
    MATE and returns. *)
Lemma main_after_successful_download_witness :
  exists sd s',
    at_dispatch mate_image_world (IMAGE_PATH mate_image_world)
      (after (snd (download_image mate_image_world NOAA_IMAGE_URL
                     (IMAGE_PATH mate_image_world) (at_download empty_state)))
             [EvSleep 1])
    = (Ok (Some "MATE"), sd)
    /\ main mate_image_world empty_state = (Ok tt, s')
    /\ extends sd s'.
Proof.
  destruct (main_after_successful_download mate_image_world empty_state
              (snd (download_image mate_image_world NOAA_IMAGE_URL
                      (IMAGE_PATH mate_image_world) (at_download empty_state))))
    as (de & sd & s' & Hd & M & Hext & _).
  - vm_compute. reflexivity.
  - exists sd, s'. split; [|split; [exact M | exact Hext]].
    rewrite Hd. f_equal. f_equal.
    assert (H : fst (at_dispatch mate_image_world (IMAGE_PATH mate_image_world)
                       (after (snd (download_image mate_image_world
                                      NOAA_IMAGE_URL
                                      (IMAGE_PATH mate_image_world)
                                      (at_download empty_state)))
                              [EvSleep 1]))
                = Ok (Some "MATE")) by (vm_compute; reflexivity).
    rewrite Hd in H. simpl in H. now injection H.
Defined.

(** ** Sample runs *)

Example upper_x_cinnamon : PyStr.upper "X-Cinnamon" = "X-CINNAMON".
Proof. reflexivity. Qed.

Example splitlines_mixed_boundaries :
  PyStr.splitlines
    (String "a" (String "013" (String "010" (String "010" "bc"))))
  = ["a"; ""; "bc"].
Proof. reflexivity. Qed.

Example splitlines_sample_listing :
  PyStr.splitlines sample_listing
  = ["/backdrop/screen0/monitor0/workspace0/last-image";
     "/backdrop/single-workspace-mode";
     "/backdrop/screen0/monitor1/image-path"].
Proof. reflexivity. Qed.

Example image_path_of_quiet_world :
  path_str (IMAGE_PATH quiet_world)
  = "/home/user/.cache/noaa_wallpaper/noaa_latest_background.jpg".
Proof. reflexivity. Qed.

Example ancestors_sample :
  ancestors ["home"; "user"; ".cache"]
  = [["home"]; ["home"; "user"]; ["home"; "user"; ".cache"]].
Proof. reflexivity. Qed.

(** Without a network the script prints its banners and the two
    diagnostics of the failed download, and creates the cache directory. *)
Example main_without_network :
  let r := main quiet_world empty_state in
  fst r = Ok tt
  /\ st_trace (snd r)
     = [EvPrint Stdout "--- NOAA GOES-19 Background Setter (Linux) ---";
        EvPrint Stdout "-> Attempting to download image from: https://cdn.star.nesdis.noaa.gov/GOES19/ABI/FD/GEOCOLOR/latest.jpg";
        EvHttpGet "https://cdn.star.nesdis.noaa.gov/GOES19/ABI/FD/GEOCOLOR/latest.jpg" 30;
        EvPrint Stderr "!! Error downloading image: connection refused";
        EvPrint Stdout "!! Background not updated due to download failure.";
        EvPrint Stdout "--- Script finished ---"]
  /\ is_dir (st_fs (snd r)) (SAVE_DIR quiet_world) = true.
Proof. vm_compute. repeat split. Qed.

(** A successful download on a MATE session ends with the gsettings
    command. *)
Example main_on_mate :
  let w := with_http (with_path quiet_world ["mate-session"])
             (HttpResponse 200 "OK" [[Byte.xff; Byte.xd8]; [Byte.xff]] None) in
  let r := main w empty_state in
  fst r = Ok tt
  /\ fs_files (st_fs (snd r)) !! IMAGE_PATH w
     = Some [Byte.xff; Byte.xd8; Byte.xff]
  /\ spawned (st_trace (snd r))
     = [["gsettings"; "set"; "org.mate.background"; "picture-filename";
         "/home/user/.cache/noaa_wallpaper/noaa_latest_background.jpg"]].
Proof. vm_compute. repeat split. Qed.
